(** * Table configurator: validation engine and repair heuristic

    A shallow embedding of the TypeScript validation core
    ([validation/types.ts], [validation/rules/*.ts], [validation/engine.ts],
    [validation/suggester.ts]) together with the properties of it that the
    design document states.

    Numbers.  A TypeScript [number] is an IEEE-754 binary64 value; it is
    modelled by Rocq's primitive [float], so every comparison, product,
    quotient and square root below is the operation the program performs,
    rounding included.  The leg count and the halfcylinder count, which the
    types declare as unions of integer literals, are modelled by [Z].

    Messages.  A finding carries two formatted texts ([messagepl],
    [messageTech]).  No function of the engine reads them back, so the
    embedding keeps the rule identifier and the field name only. *)

From Stdlib Require Import ZArith List Bool String Lia Sorted Permutation.
From Stdlib Require Import Floats.
Import ListNotations.

#[local] Set Warnings "-inexact-float".

Local Open Scope string_scope.
Local Open Scope list_scope.

(* ------------------------------------------------------------------ *)
(** ** JavaScript numeric primitives *)

Module JS.
Local Open Scope float_scope.

Definition number := float.

(** [a > b] and [a >= b]; like [<] and [<=] they are false once an
    operand is NaN. *)
Definition gtb (a b : number) : bool := b <? a.
Definition geb (a b : number) : bool := b <=? a.

(** [x ** 2], the correctly rounded square. *)
Definition sq (x : number) : number := x * x.

Definition Infinity : number := infinity.

(** 2^52: from here on every binary64 value is an integer. *)
Definition two52 : number := 4503599627370496.

(** Nearest integer of a value in [0, 2^52), by the rounding of [+]. *)
Definition rint (x : number) : number := (x + two52) - two52.

(** [Math.ceil]. *)
Definition Math_ceil (x : number) : number :=
  if abs x <? two52 then
    if x =? 0 then x
    else if 0 <? x then
      let r := rint x in if r <? x then r + 1 else r
    else
      let y := - x in
      let r := rint y in - (if y <? r then r - 1 else r)
  else x.

(** [Math.floor]. *)
Definition Math_floor (x : number) : number :=
  if abs x <? two52 then
    if x =? 0 then x
    else if 0 <? x then
      let r := rint x in if x <? r then r - 1 else r
    else
      let y := - x in
      let r := rint y in - (if r <? y then r + 1 else r)
  else x.

(** [Math.max] of two arguments. *)
Definition Math_max (a b : number) : number :=
  if is_nan a then a
  else if is_nan b then b
  else if a <? b then b
  else if b <? a then a
  else if get_sign a then b else a.

Definition Math_abs (x : number) : number := abs x.

(** [Math.sqrt], the correctly rounded square root. *)
Definition Math_sqrt (x : number) : number := sqrt x.
End JS.

(* ------------------------------------------------------------------ *)
(** ** validation/types.ts *)

Inductive TopMaterial := sintered_stone | quartz | marble | granite.
Inductive TopShapeType :=
  shape_rectangle | shape_square | shape_oval | shape_round | shape_custom.
Inductive TopEdgeFinish := straight | beveled | rounded | mitered.
Inductive TopConstruction := solid | composite.
Inductive LegMaterial :=
  steel | stainless_steel | aluminum | solid_wood | laminated_wood.
Inductive LegProfileType :=
  round | square | rectangular | trestle | pedestal | radial_halfcylinder.

Scheme Equality for TopMaterial.
Scheme Equality for TopShapeType.
Scheme Equality for TopEdgeFinish.
Scheme Equality for TopConstruction.
Scheme Equality for LegMaterial.
Scheme Equality for LegProfileType.

Record TableConfig := mkConfig {
  topMaterial : TopMaterial;
  topThicknessMm : JS.number;
  topShapeType : TopShapeType;
  topLengthMm : JS.number;
  topWidthMm : JS.number;
  topEdgeFinish : TopEdgeFinish;
  topConstruction : option TopConstruction;
  topFaceThicknessMm : option JS.number;
  legCount : Z;
  legMaterial : LegMaterial;
  legProfileType : LegProfileType;
  legProfileSizeMm : JS.number;
  legProfileWidthMm : option JS.number;
  legHeightMm : JS.number;
  hasFootBase : bool;
  legRadialCount : option Z;
  legRadialSpreadMm : option JS.number;
  totalHeightMm : JS.number
}.

(** [LegCount = 1 | 2 | 3 | 4 | 5 | 6]. *)
Definition isLegCount (n : Z) : bool := ((1 <=? n) && (n <=? 6))%Z.

(** [legRadialCount?: 3 | 4 | 5 | 6 | 8]. *)
Definition isRadialCount (n : Z) : bool :=
  ((n =? 3) || (n =? 4) || (n =? 5) || (n =? 6) || (n =? 8))%Z.

(** What the declared types ask of a configuration beyond the shape of the
    record: the two integer-literal unions. *)
Definition wellTyped (c : TableConfig) : bool :=
  isLegCount (legCount c) &&
  match legRadialCount c with
  | None => true
  | Some n => isRadialCount n
  end.

Record ValidationMessage := mkMessage {
  ruleId : string;
  field : string
}.

Record ValidationResult := mkResult {
  isValid : bool;
  warnings : list ValidationMessage;
  violations : list ValidationMessage;
  suggestedConfig : option TableConfig
}.

(** [if (cond) violations.push(m)]: the findings one guarded push adds. *)
Definition pushIf (cond : bool) (m : ValidationMessage)
  : list ValidationMessage :=
  if cond then [m] else [].

Definition isComposite (c : TableConfig) : bool :=
  match topConstruction c with
  | Some composite => true
  | _ => false
  end.

(* ------------------------------------------------------------------ *)
(** ** validation/rules/compositeRules.ts *)

Module CompositeRules.
Local Open Scope float_scope.

Definition COMPOSITE_FACE_MIN (m : TopMaterial) : option JS.number :=
  match m with
  | sintered_stone => Some 6
  | quartz => Some 12
  | marble => Some 12
  | granite => Some 12
  end.

Definition MIN_CORE_MM : JS.number := 10.

Definition checkCompositeTop (config : TableConfig)
  : list ValidationMessage :=
  if negb (isComposite config) then []
  else
    match topFaceThicknessMm config with
    | None => []
    | Some face =>
      let total := topThicknessMm config in
      let faceMin := COMPOSITE_FACE_MIN (topMaterial config) in
      let core := total - 2 * face in
      let minTotal := 2 * face + MIN_CORE_MM in
      pushIf (match faceMin with
              | Some m => face <? m
              | None => false
              end)
             (mkMessage "COMP-01" "topFaceThicknessMm")
      ++ pushIf (core <? MIN_CORE_MM)
             (mkMessage "COMP-02" "topFaceThicknessMm")
      ++ pushIf ((total <? minTotal) && JS.geb core MIN_CORE_MM)
             (mkMessage "COMP-03" "topThicknessMm")
    end.
End CompositeRules.

(* ------------------------------------------------------------------ *)
(** ** validation/rules/materialRules.ts *)

Module MaterialRules.
Local Open Scope float_scope.

Definition MATERIAL_MIN_THICKNESS (m : TopMaterial) : JS.number :=
  match m with
  | sintered_stone => 12
  | quartz => 20
  | marble => 20
  | granite => 20
  end.

Record SpanUpgrade := mkUpgrade {
  up_materials : list TopMaterial;
  spanThresholdMm : JS.number;
  up_minThicknessMm : JS.number
}.

Definition MATERIAL_SPAN_UPGRADE : list SpanUpgrade :=
  [ mkUpgrade [sintered_stone] 1200 20;
    mkUpgrade [marble; granite] 1400 30 ].

Definition includes (ms : list TopMaterial) (m : TopMaterial) : bool :=
  existsb (TopMaterial_beq m) ms.

Definition checkMaterialThickness (config : TableConfig)
  : list ValidationMessage :=
  if isComposite config then []
  else
    let absMin := MATERIAL_MIN_THICKNESS (topMaterial config) in
    pushIf (topThicknessMm config <? absMin)
           (mkMessage "MAT-01" "topThicknessMm")
    ++ flat_map
         (fun rule =>
            pushIf (includes (up_materials rule) (topMaterial config)
                    && JS.gtb (topLengthMm config) (spanThresholdMm rule)
                    && (topThicknessMm config <? up_minThicknessMm rule))
                   (mkMessage "MAT-02" "topThicknessMm"))
         MATERIAL_SPAN_UPGRADE.
End MaterialRules.


(* ------------------------------------------------------------------ *)
(** ** validation/rules/spanRules.ts *)

Module SpanRules.
Local Open Scope float_scope.

Record SpanLimit := mkSpanLimit {
  materials : list TopMaterial;
  minThicknessMm : JS.number;
  maxSpanMm : JS.number
}.

Definition SPAN_LIMITS_4LEG : list SpanLimit :=
  [ mkSpanLimit [sintered_stone] 12 900;
    mkSpanLimit [sintered_stone] 20 1800;
    mkSpanLimit [quartz; marble; granite] 20 1400;
    mkSpanLimit [sintered_stone; quartz; marble; granite] 30 2400 ].

Record PedestalLimit := mkPedestalLimit {
  ped_minThicknessMm : JS.number;
  maxDiagonalMm : JS.number
}.

Definition PEDESTAL_SPAN_LIMITS : list PedestalLimit :=
  [ mkPedestalLimit 20 1000;
    mkPedestalLimit 30 1200 ].

(** [Array.prototype.sort] with a comparator: a stable sort that puts [a]
    after [b] exactly when [cmp a b > 0].  Insertion from the right keeps
    the original order of elements the comparator does not separate. *)
Fixpoint sortInsert {A} (cmp : A -> A -> JS.number) (x : A) (l : list A)
  : list A :=
  match l with
  | [] => [x]
  | y :: l' =>
    if JS.gtb (cmp x y) 0 then y :: sortInsert cmp x l' else x :: l
  end.

Definition sort {A} (cmp : A -> A -> JS.number) (l : list A) : list A :=
  fold_right (sortInsert cmp) [] l.

(** The local constant [effectiveSpan] of [checkSpan]. *)
Definition effectiveSpan (config : TableConfig) : JS.number :=
  match topShapeType config with
  | shape_round => topLengthMm config
  | _ => JS.Math_sqrt (JS.sq (topLengthMm config) + JS.sq (topWidthMm config))
  end.

Definition compositeMultiplier (config : TableConfig) : JS.number :=
  if isComposite config then 1.4 else 1.0.

(** The condition of the pedestal branch. *)
Definition isPedestalSupport (config : TableConfig) : bool :=
  ((legCount config =? 1)%Z
   || LegProfileType_beq (legProfileType config) pedestal)
  && negb (LegProfileType_beq (legProfileType config) radial_halfcylinder).

(** [limit?.maxDiagonalMm ?? 800]. *)
Definition pedestalMaxDiag (config : TableConfig) : JS.number :=
  match find (fun l => JS.geb (topThicknessMm config) (ped_minThicknessMm l))
             (rev PEDESTAL_SPAN_LIMITS) with
  | Some limit => maxDiagonalMm limit
  | None => 800
  end.

(** The local constant [applicableRule] of [checkSpan]. *)
Definition applicableRule (config : TableConfig) : option SpanLimit :=
  find (fun r => JS.geb (topThicknessMm config) (minThicknessMm r))
    (sort (fun a b => minThicknessMm b - minThicknessMm a)
       (filter (fun r => MaterialRules.includes (materials r)
                           (topMaterial config))
          SPAN_LIMITS_4LEG)).

Definition isMultiLeg (config : TableConfig) : bool :=
  ((legCount config =? 2) || (legCount config =? 4)
   || (legCount config =? 6))%Z.

Definition checkSpan (config : TableConfig) : list ValidationMessage :=
  if isPedestalSupport config then
    pushIf (JS.gtb (effectiveSpan config) (pedestalMaxDiag config))
           (mkMessage "SPAN-02" "topLengthMm")
  else if isMultiLeg config then
    let span := topLengthMm config in
    let effectiveMaxSpan :=
      match applicableRule config with
      | Some r => maxSpanMm r * compositeMultiplier config
      | None => JS.Infinity
      end in
    pushIf (match applicableRule config with
            | Some _ => JS.gtb span effectiveMaxSpan
            | None => false
            end)
           (mkMessage "SPAN-01" "topLengthMm")
  else [].
End SpanRules.

(* ------------------------------------------------------------------ *)
(** ** validation/rules/stabilityRules.ts *)

Module StabilityRules.
Local Open Scope float_scope.

Definition MIN_STABILITY_RATIO : JS.number := 0.45.
Definition PEDESTAL_BASE_RATIO : JS.number := 0.4.

Record FootBaseRule := mkFootBaseRule {
  maxLegHeightWithoutBase : JS.number;
  minProfileForNoBase : JS.number
}.

Definition FOOT_BASE_RULES_metal : FootBaseRule := mkFootBaseRule 700 60.
Definition FOOT_BASE_RULES_wood : FootBaseRule := mkFootBaseRule 700 80.

Definition METAL_MATERIALS : list LegMaterial :=
  [steel; stainless_steel; aluminum].
Definition WOOD_MATERIALS : list LegMaterial :=
  [solid_wood; laminated_wood].

Definition has (s : list LegMaterial) (m : LegMaterial) : bool :=
  existsb (LegMaterial_beq m) s.

Definition isRadial (config : TableConfig) : bool :=
  LegProfileType_beq (legProfileType config) radial_halfcylinder.

(** The local constant [footprint] of [checkStability]. *)
Definition footprint (config : TableConfig) : JS.number :=
  match isRadial config, legRadialSpreadMm config with
  | true, Some spread => spread * 2
  | _, _ => topWidthMm config
  end.

Definition footBaseNeeded (rule : FootBaseRule) (config : TableConfig)
  : bool :=
  JS.gtb (legHeightMm config) (maxLegHeightWithoutBase rule)
  && (legProfileSizeMm config <? minProfileForNoBase rule)
  && negb (hasFootBase config).

Definition checkStability (config : TableConfig) : list ValidationMessage :=
  let stabilityRatio := footprint config / totalHeightMm config in
  pushIf (stabilityRatio <? MIN_STABILITY_RATIO)
         (mkMessage "STAB-01" "topWidthMm")
  ++ (if negb (isRadial config)
         && ((legCount config =? 1)%Z
             || LegProfileType_beq (legProfileType config) pedestal)
      then
        let minBase :=
          JS.Math_ceil (PEDESTAL_BASE_RATIO * totalHeightMm config) in
        pushIf (legProfileSizeMm config <? minBase)
               (mkMessage "STAB-02" "legProfileSizeMm")
      else [])
  ++ (if negb (isRadial config) then
        (if has METAL_MATERIALS (legMaterial config) then
           pushIf (footBaseNeeded FOOT_BASE_RULES_metal config)
                  (mkMessage "STAB-03" "hasFootBase")
         else [])
        ++ (if has WOOD_MATERIALS (legMaterial config) then
              pushIf (footBaseNeeded FOOT_BASE_RULES_wood config)
                     (mkMessage "STAB-03" "hasFootBase")
            else [])
      else []).
End StabilityRules.

(* ------------------------------------------------------------------ *)
(** ** validation/rules/legRules.ts *)

Module LegRules.
Local Open Scope float_scope.

Record LegMinProfile := mkLegMinProfile {
  lm_materials : list LegMaterial;
  profileType : LegProfileType;
  minSizeMm : JS.number
}.

Definition LEG_MIN_PROFILES : list LegMinProfile :=
  [ mkLegMinProfile [steel; stainless_steel; aluminum] round 30;
    mkLegMinProfile [steel; stainless_steel; aluminum] square 40;
    mkLegMinProfile [steel; stainless_steel; aluminum] rectangular 40 ].

Definition WOOD_MIN_PROFILE_SHORT : JS.number := 60.
Definition WOOD_MIN_PROFILE_TALL : JS.number := 80.
Definition WOOD_TALL_THRESHOLD : JS.number := 750.

Definition MAX_SLENDERNESS_METAL : JS.number := 25.
Definition MAX_SLENDERNESS_WOOD : JS.number := 15.

Definition METAL_MATERIALS : list LegMaterial :=
  [steel; stainless_steel; aluminum].
Definition WOOD_MATERIALS : list LegMaterial :=
  [solid_wood; laminated_wood].

Definition PEDESTAL_VALID_SHAPES : list TopShapeType :=
  [shape_round; shape_square].

Definition RADIAL_SPREAD_RATIO : JS.number := 0.4.
Definition RADIAL_MIN_COUNT : Z := 3.
Definition RADIAL_MIN_DIAMETER_MM : JS.number := 60.

Definition has (s : list LegMaterial) (m : LegMaterial) : bool :=
  existsb (LegMaterial_beq m) s.

Definition hasShape (s : list TopShapeType) (x : TopShapeType) : bool :=
  existsb (TopShapeType_beq x) s.

(** The radial-halfcylinder rule set: the body of the first [if], up to its
    [return]. *)
Definition checkRadial (config : TableConfig) : list ValidationMessage :=
  let violations :=
    match legRadialSpreadMm config with
    | Some spread =>
      let minSpread :=
        JS.Math_ceil (RADIAL_SPREAD_RATIO * totalHeightMm config) in
      pushIf (spread <? minSpread)
             (mkMessage "RADIAL-01" "legRadialSpreadMm")
    | None => []
    end
    ++ pushIf (match legRadialCount config with
               | Some n => (n <? RADIAL_MIN_COUNT)%Z
               | None => false
               end)
              (mkMessage "RADIAL-02" "legRadialCount")
    ++ pushIf (legProfileSizeMm config <? RADIAL_MIN_DIAMETER_MM)
              (mkMessage "RADIAL-03" "legProfileSizeMm") in
  let warnings : list ValidationMessage := [] in
  violations ++ warnings.

(** The standard leg rules LEG-01 ... LEG-05. *)
Definition checkStandard (config : TableConfig) : list ValidationMessage :=
  let isMetalLeg := has METAL_MATERIALS (legMaterial config) in
  let isWoodLeg := has WOOD_MATERIALS (legMaterial config) in
  let slenderness := legHeightMm config / legProfileSizeMm config in
  let violations :=
    (if isMetalLeg then
       match find (fun r => has (lm_materials r) (legMaterial config)
                            && LegProfileType_beq (profileType r)
                                 (legProfileType config))
                  LEG_MIN_PROFILES with
       | Some rule =>
         pushIf (legProfileSizeMm config <? minSizeMm rule)
                (mkMessage "LEG-01" "legProfileSizeMm")
       | None => []
       end
     else [])
    ++ (if isWoodLeg then
          let minSize :=
            if JS.geb (legHeightMm config) WOOD_TALL_THRESHOLD
            then WOOD_MIN_PROFILE_TALL else WOOD_MIN_PROFILE_SHORT in
          pushIf (legProfileSizeMm config <? minSize)
                 (mkMessage "LEG-02" "legProfileSizeMm")
        else [])
    ++ pushIf (isMetalLeg && JS.gtb slenderness MAX_SLENDERNESS_METAL)
              (mkMessage "LEG-03" "legProfileSizeMm")
    ++ pushIf (isWoodLeg && JS.gtb slenderness MAX_SLENDERNESS_WOOD)
              (mkMessage "LEG-03" "legProfileSizeMm")
    ++ pushIf (((legCount config =? 1)%Z
                || LegProfileType_beq (legProfileType config) pedestal)
               && negb (hasShape PEDESTAL_VALID_SHAPES (topShapeType config)))
              (mkMessage "LEG-04" "legCount") in
  let warnings :=
    pushIf ((TopShapeType_beq (topShapeType config) shape_round
             || TopShapeType_beq (topShapeType config) shape_oval)
            && (4 <=? legCount config)%Z)
           (mkMessage "LEG-05" "legCount") in
  violations ++ warnings.

Definition checkLegRules (config : TableConfig) : list ValidationMessage :=
  if LegProfileType_beq (legProfileType config) radial_halfcylinder
  then checkRadial config
  else checkStandard config.
End LegRules.

(* ------------------------------------------------------------------ *)
(** ** validation/rules/heightRules.ts *)

Module HeightRules.
Local Open Scope float_scope.

Definition MIN_TOTAL_HEIGHT : JS.number := 350.
Definition MAX_TOTAL_HEIGHT : JS.number := 1100.
Definition HEIGHT_TOLERANCE : JS.number := 2.

Definition checkHeight (config : TableConfig) : list ValidationMessage :=
  let expectedTotal := legHeightMm config + topThicknessMm config in
  let diff := JS.Math_abs (totalHeightMm config - expectedTotal) in
  pushIf (totalHeightMm config <? MIN_TOTAL_HEIGHT)
         (mkMessage "HGT-01" "totalHeightMm")
  ++ pushIf (JS.gtb (totalHeightMm config) MAX_TOTAL_HEIGHT)
         (mkMessage "HGT-01" "totalHeightMm")
  ++ pushIf (JS.gtb diff HEIGHT_TOLERANCE)
         (mkMessage "HGT-03" "totalHeightMm").
End HeightRules.

(* ------------------------------------------------------------------ *)
(** ** validation/rules/edgeRules.ts *)

Module EdgeRules.
Local Open Scope float_scope.

Definition EDGE_MIN_THICKNESS (e : TopEdgeFinish) : option JS.number :=
  match e with
  | mitered => Some 20
  | beveled => Some 12
  | _ => None
  end.

Definition effectiveThickness (config : TableConfig) : JS.number :=
  match isComposite config, topFaceThicknessMm config with
  | true, Some face => face
  | _, _ => topThicknessMm config
  end.

Definition checkEdge (config : TableConfig) : list ValidationMessage :=
  match EDGE_MIN_THICKNESS (topEdgeFinish config) with
  | Some minThickness =>
    pushIf (effectiveThickness config <? minThickness)
           (mkMessage
              (if TopEdgeFinish_beq (topEdgeFinish config) mitered
               then "EDGE-01" else "EDGE-02")
              "topEdgeFinish")
  | None => []
  end.
End EdgeRules.

(* ------------------------------------------------------------------ *)
(** ** validation/suggester.ts *)

Module Suggester.
Local Open Scope float_scope.

(** Field assignments [config.f = v] on the working copy. *)
Definition set_topThicknessMm (v : JS.number) (c : TableConfig) :=
  mkConfig (topMaterial c) v (topShapeType c) (topLengthMm c) (topWidthMm c)
    (topEdgeFinish c) (topConstruction c) (topFaceThicknessMm c) (legCount c)
    (legMaterial c) (legProfileType c) (legProfileSizeMm c)
    (legProfileWidthMm c) (legHeightMm c) (hasFootBase c) (legRadialCount c)
    (legRadialSpreadMm c) (totalHeightMm c).

Definition set_topLengthMm (v : JS.number) (c : TableConfig) :=
  mkConfig (topMaterial c) (topThicknessMm c) (topShapeType c) v
    (topWidthMm c) (topEdgeFinish c) (topConstruction c)
    (topFaceThicknessMm c) (legCount c) (legMaterial c) (legProfileType c)
    (legProfileSizeMm c) (legProfileWidthMm c) (legHeightMm c)
    (hasFootBase c) (legRadialCount c) (legRadialSpreadMm c)
    (totalHeightMm c).

Definition set_topWidthMm (v : JS.number) (c : TableConfig) :=
  mkConfig (topMaterial c) (topThicknessMm c) (topShapeType c)
    (topLengthMm c) v (topEdgeFinish c) (topConstruction c)
    (topFaceThicknessMm c) (legCount c) (legMaterial c) (legProfileType c)
    (legProfileSizeMm c) (legProfileWidthMm c) (legHeightMm c)
    (hasFootBase c) (legRadialCount c) (legRadialSpreadMm c)
    (totalHeightMm c).

Definition set_topEdgeFinish (v : TopEdgeFinish) (c : TableConfig) :=
  mkConfig (topMaterial c) (topThicknessMm c) (topShapeType c)
    (topLengthMm c) (topWidthMm c) v (topConstruction c)
    (topFaceThicknessMm c) (legCount c) (legMaterial c) (legProfileType c)
    (legProfileSizeMm c) (legProfileWidthMm c) (legHeightMm c)
    (hasFootBase c) (legRadialCount c) (legRadialSpreadMm c)
    (totalHeightMm c).

Definition set_topFaceThicknessMm (v : JS.number) (c : TableConfig) :=
  mkConfig (topMaterial c) (topThicknessMm c) (topShapeType c)
    (topLengthMm c) (topWidthMm c) (topEdgeFinish c) (topConstruction c)
    (Some v) (legCount c) (legMaterial c) (legProfileType c)
    (legProfileSizeMm c) (legProfileWidthMm c) (legHeightMm c)
    (hasFootBase c) (legRadialCount c) (legRadialSpreadMm c)
    (totalHeightMm c).

Definition set_legCount (v : Z) (c : TableConfig) :=
  mkConfig (topMaterial c) (topThicknessMm c) (topShapeType c)
    (topLengthMm c) (topWidthMm c) (topEdgeFinish c) (topConstruction c)
    (topFaceThicknessMm c) v (legMaterial c) (legProfileType c)
    (legProfileSizeMm c) (legProfileWidthMm c) (legHeightMm c)
    (hasFootBase c) (legRadialCount c) (legRadialSpreadMm c)
    (totalHeightMm c).

Definition set_legProfileType (v : LegProfileType) (c : TableConfig) :=
  mkConfig (topMaterial c) (topThicknessMm c) (topShapeType c)
    (topLengthMm c) (topWidthMm c) (topEdgeFinish c) (topConstruction c)
    (topFaceThicknessMm c) (legCount c) (legMaterial c) v
    (legProfileSizeMm c) (legProfileWidthMm c) (legHeightMm c)
    (hasFootBase c) (legRadialCount c) (legRadialSpreadMm c)
    (totalHeightMm c).

Definition set_legProfileSizeMm (v : JS.number) (c : TableConfig) :=
  mkConfig (topMaterial c) (topThicknessMm c) (topShapeType c)
    (topLengthMm c) (topWidthMm c) (topEdgeFinish c) (topConstruction c)
    (topFaceThicknessMm c) (legCount c) (legMaterial c) (legProfileType c)
    v (legProfileWidthMm c) (legHeightMm c) (hasFootBase c)
    (legRadialCount c) (legRadialSpreadMm c) (totalHeightMm c).

Definition set_legHeightMm (v : JS.number) (c : TableConfig) :=
  mkConfig (topMaterial c) (topThicknessMm c) (topShapeType c)
    (topLengthMm c) (topWidthMm c) (topEdgeFinish c) (topConstruction c)
    (topFaceThicknessMm c) (legCount c) (legMaterial c) (legProfileType c)
    (legProfileSizeMm c) (legProfileWidthMm c) v (hasFootBase c)
    (legRadialCount c) (legRadialSpreadMm c) (totalHeightMm c).

Definition set_hasFootBase (v : bool) (c : TableConfig) :=
  mkConfig (topMaterial c) (topThicknessMm c) (topShapeType c)
    (topLengthMm c) (topWidthMm c) (topEdgeFinish c) (topConstruction c)
    (topFaceThicknessMm c) (legCount c) (legMaterial c) (legProfileType c)
    (legProfileSizeMm c) (legProfileWidthMm c) (legHeightMm c) v
    (legRadialCount c) (legRadialSpreadMm c) (totalHeightMm c).

Definition set_legRadialCount (v : Z) (c : TableConfig) :=
  mkConfig (topMaterial c) (topThicknessMm c) (topShapeType c)
    (topLengthMm c) (topWidthMm c) (topEdgeFinish c) (topConstruction c)
    (topFaceThicknessMm c) (legCount c) (legMaterial c) (legProfileType c)
    (legProfileSizeMm c) (legProfileWidthMm c) (legHeightMm c)
    (hasFootBase c) (Some v) (legRadialSpreadMm c) (totalHeightMm c).

Definition set_legRadialSpreadMm (v : JS.number) (c : TableConfig) :=
  mkConfig (topMaterial c) (topThicknessMm c) (topShapeType c)
    (topLengthMm c) (topWidthMm c) (topEdgeFinish c) (topConstruction c)
    (topFaceThicknessMm c) (legCount c) (legMaterial c) (legProfileType c)
    (legProfileSizeMm c) (legProfileWidthMm c) (legHeightMm c)
    (hasFootBase c) (legRadialCount c) (Some v) (totalHeightMm c).

Definition set_totalHeightMm (v : JS.number) (c : TableConfig) :=
  mkConfig (topMaterial c) (topThicknessMm c) (topShapeType c)
    (topLengthMm c) (topWidthMm c) (topEdgeFinish c) (topConstruction c)
    (topFaceThicknessMm c) (legCount c) (legMaterial c) (legProfileType c)
    (legProfileSizeMm c) (legProfileWidthMm c) (legHeightMm c)
    (hasFootBase c) (legRadialCount c) (legRadialSpreadMm c) v.

(** [x ?? d]. *)
Definition orDefault {A} (x : option A) (d : A) : A :=
  match x with Some v => v | None => d end.

(** [if (get(config) < min) set(config, min)]: raise a field to a floor. *)
Definition bump (get : TableConfig -> JS.number)
    (set : JS.number -> TableConfig -> TableConfig)
    (min : JS.number) (config : TableConfig) : TableConfig :=
  if get config <? min then set min config else config.

Definition isWoodMaterial (material : LegMaterial) : bool :=
  LegMaterial_beq material solid_wood
  || LegMaterial_beq material laminated_wood.

Definition spanBasedMinThickness (config : TableConfig) : JS.number :=
  if TopMaterial_beq (topMaterial config) sintered_stone
     && JS.gtb (topLengthMm config) 1200 then 20
  else if (TopMaterial_beq (topMaterial config) marble
           || TopMaterial_beq (topMaterial config) granite)
          && JS.gtb (topLengthMm config) 1400 then 30
  else topThicknessMm config.

Definition minThicknessForSpan (material : TopMaterial) (spanMm : JS.number)
  : option JS.number :=
  match material with
  | sintered_stone =>
    if spanMm <=? 900 then Some 12
    else if spanMm <=? 1800 then Some 20
    else if spanMm <=? 2400 then Some 30
    else None
  | quartz | marble | granite =>
    if spanMm <=? 1400 then Some 20
    else if spanMm <=? 2400 then Some 30
    else None
  end.

Definition maxSpanForThickness (material : TopMaterial)
    (thickness : JS.number) : option JS.number :=
  match material with
  | sintered_stone =>
    if JS.geb thickness 30 then Some 2400
    else if JS.geb thickness 20 then Some 1800
    else if JS.geb thickness 12 then Some 900
    else None
  | quartz | marble | granite =>
    if JS.geb thickness 30 then Some 2400
    else if JS.geb thickness 20 then Some 1400
    else None
  end.

(** The tables local to the cases of [applyFix]. *)
Definition matMin (m : TopMaterial) : option JS.number :=
  match m with
  | sintered_stone => Some 12
  | quartz => Some 20
  | marble => Some 20
  | granite => Some 20
  end.

Definition metalMin (p : LegProfileType) : option JS.number :=
  match p with
  | round => Some 30
  | square => Some 40
  | rectangular => Some 40
  | _ => None
  end.

Definition faceMin (m : TopMaterial) : option JS.number :=
  match m with
  | sintered_stone => Some 6
  | quartz => Some 12
  | marble => Some 12
  | granite => Some 12
  end.

(** The cases of the [switch] in [applyFix], one definition per case. *)
Definition fix_MAT_01 (config : TableConfig) : TableConfig :=
  bump topThicknessMm set_topThicknessMm
    (orDefault (matMin (topMaterial config)) 20) config.

Definition fix_MAT_02 (config : TableConfig) : TableConfig :=
  bump topThicknessMm set_topThicknessMm (spanBasedMinThickness config) config.

Definition fix_SPAN_01 (config : TableConfig) : TableConfig :=
  match minThicknessForSpan (topMaterial config) (topLengthMm config) with
  | Some requiredThickness =>
    set_topThicknessMm
      (JS.Math_max (topThicknessMm config) requiredThickness) config
  | None =>
    match maxSpanForThickness (topMaterial config) (topThicknessMm config) with
    | Some maxLen => set_topLengthMm maxLen config
    | None => config
    end
  end.

Definition fix_SPAN_02 (config : TableConfig) : TableConfig :=
  if topThicknessMm config <? 30 then set_topThicknessMm 30 config
  else
    let maxDiag := 1200 in
    let currentDiag :=
      JS.Math_sqrt (JS.sq (topLengthMm config) + JS.sq (topWidthMm config)) in
    if JS.gtb currentDiag maxDiag then
      let scale := maxDiag / currentDiag in
      let config1 :=
        set_topLengthMm (JS.Math_floor (topLengthMm config * scale)) config in
      set_topWidthMm (JS.Math_floor (topWidthMm config1 * scale)) config1
    else config.

Definition fix_STAB_01 (config : TableConfig) : TableConfig :=
  bump topWidthMm set_topWidthMm
    (JS.Math_ceil (0.45 * totalHeightMm config)) config.

Definition fix_STAB_02 (config : TableConfig) : TableConfig :=
  bump legProfileSizeMm set_legProfileSizeMm
    (JS.Math_ceil (0.4 * totalHeightMm config)) config.

Definition fix_STAB_03 (config : TableConfig) : TableConfig :=
  set_hasFootBase true config.

Definition fix_LEG_01 (config : TableConfig) : TableConfig :=
  bump legProfileSizeMm set_legProfileSizeMm
    (orDefault (metalMin (legProfileType config)) 40) config.

Definition fix_LEG_02 (config : TableConfig) : TableConfig :=
  bump legProfileSizeMm set_legProfileSizeMm
    (if JS.geb (legHeightMm config) 750 then 80 else 60) config.

Definition fix_LEG_03 (config : TableConfig) : TableConfig :=
  let maxSlenderness :=
    if isWoodMaterial (legMaterial config) then 15 else 25 in
  bump legProfileSizeMm set_legProfileSizeMm
    (JS.Math_ceil (legHeightMm config / maxSlenderness)) config.

Definition fix_LEG_04 (config : TableConfig) : TableConfig :=
  let config1 := set_legCount 4%Z config in
  if LegProfileType_beq (legProfileType config1) pedestal
  then set_legProfileType square config1
  else config1.

Definition fix_HGT_01 (config : TableConfig) : TableConfig :=
  if totalHeightMm config <? 550 then
    let config1 := set_totalHeightMm 550 config in
    set_legHeightMm (550 - topThicknessMm config1) config1
  else if JS.gtb (totalHeightMm config) 1100 then
    let config1 := set_totalHeightMm 1100 config in
    set_legHeightMm (1100 - topThicknessMm config1) config1
  else config.

Definition fix_HGT_03 (config : TableConfig) : TableConfig :=
  set_totalHeightMm (legHeightMm config + topThicknessMm config) config.

Definition fix_EDGE_01 (config : TableConfig) : TableConfig :=
  bump topThicknessMm set_topThicknessMm 20 config.

Definition fix_EDGE_02 (config : TableConfig) : TableConfig :=
  if topThicknessMm config <? 12 then set_topEdgeFinish straight config
  else set_topThicknessMm 12 config.

Definition fix_COMP_01 (config : TableConfig) : TableConfig :=
  let min := orDefault (faceMin (topMaterial config)) 12 in
  if orDefault (topFaceThicknessMm config) 0 <? min
  then set_topFaceThicknessMm min config
  else config.

Definition fix_COMP_02 (config : TableConfig) : TableConfig :=
  let face := orDefault (topFaceThicknessMm config) 6 in
  bump topThicknessMm set_topThicknessMm (2 * face + 10) config.

Definition fix_COMP_03 (config : TableConfig) : TableConfig :=
  let face := orDefault (topFaceThicknessMm config) 6 in
  bump topThicknessMm set_topThicknessMm (2 * face + 10) config.

Definition fix_RADIAL_01 (config : TableConfig) : TableConfig :=
  let minSpread := JS.Math_ceil (0.4 * totalHeightMm config) in
  if orDefault (legRadialSpreadMm config) 0 <? minSpread
  then set_legRadialSpreadMm minSpread config
  else config.

Definition fix_RADIAL_02 (config : TableConfig) : TableConfig :=
  set_legRadialCount 3%Z config.

Definition fix_RADIAL_03 (config : TableConfig) : TableConfig :=
  bump legProfileSizeMm set_legProfileSizeMm 60 config.

(** The [switch (violation.ruleId)] as a table from case label to case
    body; a label that is not listed takes the [default] branch. *)
Definition fixTable : list (string * (TableConfig -> TableConfig)) :=
  [ ("MAT-01", fix_MAT_01); ("MAT-02", fix_MAT_02);
    ("SPAN-01", fix_SPAN_01); ("SPAN-02", fix_SPAN_02);
    ("STAB-01", fix_STAB_01); ("STAB-02", fix_STAB_02);
    ("STAB-03", fix_STAB_03);
    ("LEG-01", fix_LEG_01); ("LEG-02", fix_LEG_02);
    ("LEG-03", fix_LEG_03); ("LEG-04", fix_LEG_04);
    ("HGT-01", fix_HGT_01); ("HGT-03", fix_HGT_03);
    ("EDGE-01", fix_EDGE_01); ("EDGE-02", fix_EDGE_02);
    ("COMP-01", fix_COMP_01); ("COMP-02", fix_COMP_02);
    ("COMP-03", fix_COMP_03);
    ("RADIAL-01", fix_RADIAL_01); ("RADIAL-02", fix_RADIAL_02);
    ("RADIAL-03", fix_RADIAL_03) ].

Definition applyFix (config : TableConfig) (violation : ValidationMessage)
  : TableConfig :=
  match find (fun entry => String.eqb (fst entry) (ruleId violation))
             fixTable with
  | Some entry => snd entry config
  | None => config
  end.

(** The loop applies the fixes to one working copy, in list order, and the
    total height is then assigned from the copy's own fields. *)
Definition generateSuggestion (original : TableConfig)
    (violations : list ValidationMessage) : TableConfig :=
  let suggested := fold_left applyFix violations original in
  set_totalHeightMm (legHeightMm suggested + topThicknessMm suggested)
    suggested.
End Suggester.

(* ------------------------------------------------------------------ *)
(** ** validation/engine.ts *)

Module Engine.

Definition WARNING_RULE_IDS : list string := ["LEG-05"].

Definition isWarning (m : ValidationMessage) : bool :=
  existsb (String.eqb (ruleId m)) WARNING_RULE_IDS.

(** The local constant [allMessages] of [validate]. *)
Definition allMessages (config : TableConfig) : list ValidationMessage :=
  CompositeRules.checkCompositeTop config
  ++ MaterialRules.checkMaterialThickness config
  ++ SpanRules.checkSpan config
  ++ StabilityRules.checkStability config
  ++ LegRules.checkLegRules config
  ++ HeightRules.checkHeight config
  ++ EdgeRules.checkEdge config.

Definition validate (config : TableConfig) : ValidationResult :=
  let violations := filter (fun m => negb (isWarning m)) (allMessages config) in
  let warnings := filter isWarning (allMessages config) in
  let isValid := (List.length violations =? 0)%nat in
  mkResult isValid warnings violations
    (if negb isValid
     then Some (Suggester.generateSuggestion config violations)
     else None).
End Engine.

(* ------------------------------------------------------------------ *)
(** ** Sample configurations (src/__tests__/engine.test.ts) *)

Module Samples.
Local Open Scope float_scope.

(** [base()]: 1800 x 900, 20 mm sintered stone, four steel legs. *)
Definition base : TableConfig :=
  mkConfig sintered_stone 20 shape_rectangle 1800 900 straight None None
    4%Z steel square 60 None 700 false None None 720.

(** TC-14: the base table with an oval top. *)
Definition ovalTop : TableConfig :=
  mkConfig sintered_stone 20 shape_oval 1800 900 straight None None
    4%Z steel square 60 None 700 false None None 720.

(** TC-17: composite quartz top, 30 mm overall with 4 mm faces. *)
Definition thinFaces : TableConfig :=
  mkConfig quartz 30 shape_rectangle 1800 900 straight (Some composite)
    (Some 4) 4%Z steel square 60 None 700 false None None 730.

(** TC-19: radial base, four halfcylinders, spread 200 mm. *)
Definition radialNarrow : TableConfig :=
  mkConfig sintered_stone 20 shape_rectangle 1800 900 straight None None
    1%Z steel radial_halfcylinder 80 None 730 false (Some 4%Z) (Some 200)
    750.

(** TC-19 with the spread left out. *)
Definition radialNoSpread : TableConfig :=
  mkConfig sintered_stone 20 shape_rectangle 1800 900 straight None None
    1%Z steel radial_halfcylinder 80 None 730 false (Some 4%Z) None 750.

(** TC-16 with a beveled edge: 45 mm composite sintered stone, 6 mm
    faces. *)
Definition beveledComposite : TableConfig :=
  mkConfig sintered_stone 45 shape_rectangle 1800 900 beveled
    (Some composite) (Some 6) 4%Z steel square 60 None 700 false None None
    745.

(** The base table on a narrow top with a stated total height of 400 mm,
    320 mm short of leg plus top. *)
Definition understatedHeight : TableConfig :=
  mkConfig sintered_stone 20 shape_rectangle 1800 200 straight None None
    4%Z steel square 60 None 700 false None None 400.

(** TC-17 made long: 4 mm faces and a 3500 mm top. *)
Definition thinFacesLong : TableConfig :=
  mkConfig quartz 30 shape_rectangle 3500 900 straight (Some composite)
    (Some 4) 4%Z steel square 60 None 700 false None None 730.
End Samples.

(** Further sample configurations, most of them of the test suite. *)

Module Cases.
Local Open Scope float_scope.

(** TC-08: the base table with a 6 mm top. *)
Definition thinTop : TableConfig :=
  mkConfig sintered_stone 6 shape_rectangle 1800 900 straight None None
    4%Z steel square 60 None 994 false None None 1000.

(** TC-02: 1600 by 800 at 12 mm. *)
Definition longThinTop : TableConfig :=
  mkConfig sintered_stone 12 shape_rectangle 1600 800 straight None None
    4%Z steel square 60 None 688 false None None 700.

(** TC-03: a round 1200 mm top on one 50 mm pedestal. *)
Definition slimPedestal : TableConfig :=
  mkConfig sintered_stone 20 shape_round 1200 1200 straight None None
    1%Z steel pedestal 50 None 730 false None None 750.

(** TC-04: 880 mm legs of 50 mm solid wood. *)
Definition slenderWood : TableConfig :=
  mkConfig sintered_stone 20 shape_rectangle 1800 900 straight None None
    4%Z solid_wood square 50 None 880 false None None 900.

(** TC-05: a mitered edge on a 12 mm top. *)
Definition miteredThin : TableConfig :=
  mkConfig sintered_stone 12 shape_rectangle 1800 900 mitered None None
    4%Z steel square 60 None 688 false None None 700.

(** TC-06: total height 750 for 700 mm legs under a 20 mm top. *)
Definition heightMismatch : TableConfig :=
  mkConfig sintered_stone 20 shape_rectangle 1800 900 straight None None
    4%Z steel square 60 None 700 false None None 750.

(** A radial base, 150 mm of spread under 750 mm. *)
Definition radialTippy : TableConfig :=
  mkConfig sintered_stone 20 shape_rectangle 1800 900 straight None None
    1%Z steel radial_halfcylinder 80 None 730 false (Some 4%Z) (Some 150)
    750.

(** TC-16 with a mitered edge: 45 mm composite, 6 mm faces. *)
Definition miteredComposite : TableConfig :=
  mkConfig sintered_stone 45 shape_rectangle 1800 900 mitered
    (Some composite) (Some 6) 4%Z steel square 60 None 700 false None None
    745.



End Cases.

(* ------------------------------------------------------------------ *)
(** * The constraint calculator (validation/constraints.ts) *)

(** The calculator imports the constants of the rule files by name; each
    is taken to be the constant the rule file declares under that name. *)

Module JSMath.
Local Open Scope float_scope.


(** [Math.round]: the nearest integer, halves towards +Infinity. *)
Definition Math_round (x : JS.number) : JS.number :=
  if abs x <? JS.two52 then
    if x =? 0 then x
    else
      let f := JS.Math_floor x in
      let r := if 0.5 <=? x - f then f + 1 else f in
      if (r =? 0) && (x <? 0) then - 0 else r
  else x.
End JSMath.

Module Constraints.
Local Open Scope float_scope.

(** [Partial<TableConfig>]: every field may be missing. *)
Record PartialConfig := mkPartial {
  p_topMaterial : option TopMaterial;
  p_topThicknessMm : option JS.number;
  p_topShapeType : option TopShapeType;
  p_topLengthMm : option JS.number;
  p_topWidthMm : option JS.number;
  p_topEdgeFinish : option TopEdgeFinish;
  p_topConstruction : option TopConstruction;
  p_topFaceThicknessMm : option JS.number;
  p_legCount : option Z;
  p_legMaterial : option LegMaterial;
  p_legProfileType : option LegProfileType;
  p_legProfileSizeMm : option JS.number;
  p_legProfileWidthMm : option JS.number;
  p_legHeightMm : option JS.number;
  p_hasFootBase : option bool;
  p_legRadialCount : option Z;
  p_legRadialSpreadMm : option JS.number;
  p_totalHeightMm : option JS.number
}.

(** Nothing chosen yet. *)
Definition emptyPartial : PartialConfig :=
  mkPartial None None None None None None None None None None None None
    None None None None None None.

(** A complete configuration, passed where a partial one is expected. *)
Definition toPartial (c : TableConfig) : PartialConfig :=
  mkPartial (Some (topMaterial c)) (Some (topThicknessMm c))
    (Some (topShapeType c)) (Some (topLengthMm c)) (Some (topWidthMm c))
    (Some (topEdgeFinish c)) (topConstruction c) (topFaceThicknessMm c)
    (Some (legCount c)) (Some (legMaterial c)) (Some (legProfileType c))
    (Some (legProfileSizeMm c)) (legProfileWidthMm c)
    (Some (legHeightMm c)) (Some (hasFootBase c)) (legRadialCount c)
    (legRadialSpreadMm c) (Some (totalHeightMm c)).

(** [FieldConstraint], without the explanatory text [reason]. *)
Record FieldConstraint := mkConstraint {
  min : JS.number;
  max : JS.number;
  recommended : option JS.number
}.


(** The absolute bounds [ABS]. *)
Definition ABS_topThickness_min : JS.number := 6.
Definition ABS_topThickness_max : JS.number := 60.
Definition ABS_topLength_min : JS.number := 200.
Definition ABS_topLength_max : JS.number := 4000.

(** [if (x > min) min = x]. *)
Definition raise (x m : JS.number) : JS.number :=
  if JS.gtb x m then x else m.

(** [if (x < max) max = x]. *)
Definition lower (x m : JS.number) : JS.number :=
  if x <? m then x else m.

Definition isCompositeP (p : PartialConfig) : bool :=
  match p_topConstruction p with
  | Some composite => true
  | _ => false
  end.

(** [p.legProfileType !== 'radial_halfcylinder']. *)
Definition notRadialP (p : PartialConfig) : bool :=
  match p_legProfileType p with
  | Some radial_halfcylinder => false
  | _ => true
  end.

(** [p.legCount != null && p.legCount > 1]. *)
Definition severalLegsP (p : PartialConfig) : bool :=
  match p_legCount p with
  | Some n => (1 <? n)%Z
  | None => false
  end.

(** Lowest thickness tier whose maximum span, times [mult], reaches
    [span]. *)
Definition minThicknessForSpan (material : TopMaterial)
    (span mult : JS.number) : option JS.number :=
  let tiers :=
    SpanRules.sort
      (fun a b => SpanRules.minThicknessMm a - SpanRules.minThicknessMm b)
      (filter (fun r => MaterialRules.includes (SpanRules.materials r)
                          material)
         SpanRules.SPAN_LIMITS_4LEG) in
  option_map SpanRules.minThicknessMm
    (find (fun tier => span <=? SpanRules.maxSpanMm tier * mult) tiers).

(** Highest maximum span, times [mult], for a material and a thickness. *)
Definition maxSpanForThickness (material : TopMaterial)
    (thickness mult : JS.number) : option JS.number :=
  let tiers :=
    SpanRules.sort
      (fun a b => SpanRules.minThicknessMm b - SpanRules.minThicknessMm a)
      (filter (fun r => MaterialRules.includes (SpanRules.materials r)
                          material)
         SpanRules.SPAN_LIMITS_4LEG) in
  option_map (fun tier => JSMath.Math_round (SpanRules.maxSpanMm tier * mult))
    (find (fun r => JS.geb thickness (SpanRules.minThicknessMm r)) tiers).

Definition recommendedThickness (material : option TopMaterial)
    (length : option JS.number) (atLeast : JS.number) : JS.number :=
  let longer (threshold : JS.number) :=
    match length with
    | Some len => JS.gtb len threshold
    | None => false
    end in
  match material with
  | None => JS.Math_max atLeast 20
  | Some sintered_stone =>
    JS.Math_max atLeast (if longer 1200 then 20 else 12)
  | Some _ => JS.Math_max atLeast (if longer 1400 then 30 else 20)
  end.

Definition topThicknessConstraint (p : PartialConfig) : FieldConstraint :=
  let min0 := ABS_topThickness_min in
  if isCompositeP p then
    let faceMin :=
      match p_topFaceThicknessMm p with
      | Some face => face
      | None =>
        match p_topMaterial p with
        | Some m =>
          Suggester.orDefault (CompositeRules.COMPOSITE_FACE_MIN m) 6
        | None => 6
        end
      end in
    let minTotal := 2 * faceMin + CompositeRules.MIN_CORE_MM in
    let min := raise minTotal min0 in
    mkConstraint min ABS_topThickness_max (Some min)
  else
    let min1 :=
      match p_topMaterial p with
      | Some m => raise (MaterialRules.MATERIAL_MIN_THICKNESS m) min0
      | None => min0
      end in
    let min2 :=
      match p_topMaterial p, p_topLengthMm p with
      | Some m, Some len =>
        fold_left
          (fun acc rule =>
             if MaterialRules.includes (MaterialRules.up_materials rule) m
                && JS.gtb len (MaterialRules.spanThresholdMm rule)
             then raise (MaterialRules.up_minThicknessMm rule) acc
             else acc)
          MaterialRules.MATERIAL_SPAN_UPGRADE min1
      | _, _ => min1
      end in
    let min3 :=
      match p_topMaterial p, p_topLengthMm p with
      | Some m, Some len =>
        if severalLegsP p && notRadialP p then
          match minThicknessForSpan m len 1.0 with
          | Some spanMin => raise spanMin min2
          | None => min2
          end
        else min2
      | _, _ => min2
      end in
    let min4 :=
      match p_topEdgeFinish p with
      | Some e =>
        match EdgeRules.EDGE_MIN_THICKNESS e with
        | Some edgeMin => raise edgeMin min3
        | None => min3
        end
      | None => min3
      end in
    mkConstraint min4 ABS_topThickness_max
      (Some (recommendedThickness (p_topMaterial p) (p_topLengthMm p) min4)).


Definition topLengthConstraint (p : PartialConfig) : FieldConstraint :=
  let max0 := ABS_topLength_max in
  let compositeMultiplier := if isCompositeP p then 1.4 else 1.0 in
  let max1 :=
    match p_topMaterial p, p_topThicknessMm p with
    | Some m, Some t =>
      if severalLegsP p && notRadialP p then
        match maxSpanForThickness m t compositeMultiplier with
        | Some spanMax => lower spanMax max0
        | None => max0
        end
      else max0
    | _, _ => max0
    end in
  mkConstraint ABS_topLength_min max1 None.





End Constraints.

(* ------------------------------------------------------------------ *)
(** * Properties *)

(** ** The engine: validity and the presence of a suggestion *)

Module EngineProps.
Import Engine.

Lemma length_zero_iff_nil {A} (l : list A) :
  (List.length l =? 0)%nat = true <-> l = [].
Proof.
  destruct l as [|x l]; simpl; split; intro H; try reflexivity; discriminate.
Qed.

Lemma validate_violations (c : TableConfig) :
  violations (validate c)
  = filter (fun m => negb (isWarning m)) (allMessages c).
Proof. reflexivity. Qed.

Lemma validate_warnings (c : TableConfig) :
  warnings (validate c) = filter isWarning (allMessages c).
Proof. reflexivity. Qed.

Lemma validate_isValid (c : TableConfig) :
  isValid (validate c) = (List.length (violations (validate c)) =? 0)%nat.
Proof. reflexivity. Qed.

Lemma validate_suggestedConfig (c : TableConfig) :
  suggestedConfig (validate c)
  = if negb (isValid (validate c))
    then Some (Suggester.generateSuggestion c (violations (validate c)))
    else None.
Proof. reflexivity. Qed.

(** C1.  [validate] reports a specification valid exactly when its list of
    violations is empty; the warnings take no part in the flag, so a result
    that carries warnings and no violation is valid. *)
Theorem validate_valid_iff_no_violations (c : TableConfig) :
  (isValid (validate c) = true <-> violations (validate c) = [])
  /\ (violations (validate c) = [] ->
      forall w, In w (warnings (validate c)) -> isValid (validate c) = true).
Proof.
  split.
  - rewrite validate_isValid. apply length_zero_iff_nil.
  - intros Hv w _. rewrite validate_isValid, Hv. reflexivity.
Qed.

Lemma validate_valid_iff_no_violations_witness :
  (isValid (validate Samples.ovalTop) = true
   <-> violations (validate Samples.ovalTop) = [])
  /\ (violations (validate Samples.ovalTop) = [] ->
      forall w, In w (warnings (validate Samples.ovalTop)) ->
                isValid (validate Samples.ovalTop) = true).
Proof. exact (validate_valid_iff_no_violations Samples.ovalTop). Defined.

(** The oval-top sample (TC-14) is such a result: one warning, no
    violation, valid. *)
Example ovalTop_valid_with_warning :
  validate Samples.ovalTop
  = mkResult true [mkMessage "LEG-05" "legCount"] [] None.
Proof. vm_compute. reflexivity. Qed.

End EngineProps.

(** ** The repair heuristic *)

Module SuggesterProps.
Import Suggester Engine.
Local Open Scope float_scope.

(** A property of configurations that every case of the [switch] keeps is
    kept by [applyFix], whatever the rule identifier. *)
Lemma applyFix_preserves (P : TableConfig -> Prop) :
  Forall (fun entry => forall c, P c -> P (snd entry c)) fixTable ->
  forall c v, P c -> P (applyFix c v).
Proof.
  intros Hall c v Hc. unfold applyFix.
  destruct (find _ fixTable) as [entry|] eqn:Hfind; [|exact Hc].
  apply find_some in Hfind. destruct Hfind as [Hin _].
  rewrite Forall_forall in Hall. exact (Hall entry Hin c Hc).
Qed.

Lemma fold_applyFix_preserves (P : TableConfig -> Prop) :
  (forall c v, P c -> P (applyFix c v)) ->
  forall vs c, P c -> P (fold_left applyFix vs c).
Proof.
  intros Hstep vs. induction vs as [|v vs IH]; intros c Hc; simpl.
  - exact Hc.
  - apply IH, Hstep, Hc.
Qed.

(** The two fields the integer-literal unions constrain, after each case. *)
Ltac fix_cases :=
  repeat match goal with
         | |- context [if ?b then _ else _] => destruct b
         | |- context [match ?x with Some _ => _ | None => _ end] =>
           destruct x
         end.

Lemma applyFix_wellTyped (c : TableConfig) (v : ValidationMessage) :
  wellTyped c = true -> wellTyped (applyFix c v) = true.
Proof.
  revert c v. apply (applyFix_preserves (fun c => wellTyped c = true)).
  repeat apply Forall_cons; try apply Forall_nil; simpl; intros c Hc;
    unfold fix_MAT_01, fix_MAT_02, fix_SPAN_01, fix_SPAN_02, fix_STAB_01,
      fix_STAB_02, fix_STAB_03, fix_LEG_01, fix_LEG_02, fix_LEG_03,
      fix_LEG_04, fix_HGT_01, fix_HGT_03, fix_EDGE_01, fix_EDGE_02,
      fix_COMP_01, fix_COMP_02, fix_COMP_03, fix_RADIAL_01, fix_RADIAL_02,
      fix_RADIAL_03, bump;
    fix_cases; try exact Hc;
    unfold wellTyped in *; simpl in *;
    try exact Hc;
    try (apply andb_true_iff in Hc; destruct Hc as [H1 H2];
         first [ exact H2 | rewrite H1; reflexivity ]).
Qed.

Lemma generateSuggestion_wellTyped (c : TableConfig)
    (vs : list ValidationMessage) :
  wellTyped c = true -> wellTyped (generateSuggestion c vs) = true.
Proof.
  intro Hc. unfold generateSuggestion.
  assert (H : wellTyped (fold_left applyFix vs c) = true)
    by (apply fold_applyFix_preserves;
        [intros; apply applyFix_wellTyped; assumption | exact Hc]).
  exact H.
Qed.

(** The choices no case of the [switch] assigns are those of the
    original. *)
Definition sameUntouched (c s : TableConfig) : Prop :=
  topMaterial s = topMaterial c
  /\ topShapeType s = topShapeType c
  /\ topConstruction s = topConstruction c
  /\ legMaterial s = legMaterial c
  /\ legProfileWidthMm s = legProfileWidthMm c.

Lemma applyFix_sameUntouched (c0 c : TableConfig) (v : ValidationMessage) :
  sameUntouched c0 c -> sameUntouched c0 (applyFix c v).
Proof.
  revert c v. apply (applyFix_preserves (sameUntouched c0)).
  repeat apply Forall_cons; try apply Forall_nil; simpl; intros c Hc;
    unfold fix_MAT_01, fix_MAT_02, fix_SPAN_01, fix_SPAN_02, fix_STAB_01,
      fix_STAB_02, fix_STAB_03, fix_LEG_01, fix_LEG_02, fix_LEG_03,
      fix_LEG_04, fix_HGT_01, fix_HGT_03, fix_EDGE_01, fix_EDGE_02,
      fix_COMP_01, fix_COMP_02, fix_COMP_03, fix_RADIAL_01, fix_RADIAL_02,
      fix_RADIAL_03, bump;
    fix_cases; exact Hc.
Qed.

Lemma generateSuggestion_sameUntouched (c : TableConfig)
    (vs : list ValidationMessage) :
  sameUntouched c (generateSuggestion c vs).
Proof.
  unfold generateSuggestion.
  assert (H : sameUntouched c (fold_left applyFix vs c)).
  { apply fold_applyFix_preserves.
    - intros; apply applyFix_sameUntouched; assumption.
    - repeat split. }
  exact H.
Qed.

(** C2.  The result of [validate] carries a suggestion exactly when it is
    not valid.  The suggestion is a whole configuration, not a patch: it is
    the record the repair returns, with every required field, it carries
    over the choices no fix touches, and its leg count and halfcylinder
    count stay within the declared literal unions whenever those of the
    input do. *)
Theorem validate_suggestion_iff_invalid (c : TableConfig) :
  (suggestedConfig (validate c) <> None <-> isValid (validate c) = false)
  /\ (forall s : TableConfig,
        suggestedConfig (validate c) = Some s ->
        s = generateSuggestion c (violations (validate c))
        /\ sameUntouched c s
        /\ (wellTyped c = true -> wellTyped s = true)).
Proof.
  rewrite EngineProps.validate_suggestedConfig.
  destruct (isValid (validate c)) eqn:Hv; simpl.
  - split; [split; [intro H; now elim H | discriminate] | discriminate].
  - split; [split; [reflexivity | discriminate] |].
    intros s Hs. injection Hs as <-.
    split; [reflexivity|].
    split; [apply generateSuggestion_sameUntouched|].
    apply generateSuggestion_wellTyped.
Qed.

Lemma validate_suggestion_iff_invalid_witness :
  (suggestedConfig (validate Samples.thinFaces) <> None
   <-> isValid (validate Samples.thinFaces) = false)
  /\ (forall s : TableConfig,
        suggestedConfig (validate Samples.thinFaces) = Some s ->
        s = generateSuggestion Samples.thinFaces
              (violations (validate Samples.thinFaces))
        /\ sameUntouched Samples.thinFaces s
        /\ (wellTyped Samples.thinFaces = true -> wellTyped s = true)).
Proof. exact (validate_suggestion_iff_invalid Samples.thinFaces). Defined.

(** The suggestion for the thin-faced composite top (TC-17): the faces are
    raised to the 12 mm of quartz, everything else stays. *)
Example thinFaces_suggestion :
  option_map (fun s => (topFaceThicknessMm s, topThicknessMm s,
                        totalHeightMm s, wellTyped s))
    (suggestedConfig (validate Samples.thinFaces))
  = Some (Some 12, 30, 730, true).
Proof. vm_compute. reflexivity. Qed.

(** C3.  Whatever the original configuration and the list of violations,
    the configuration the repair returns stores as total height the sum of
    its own leg height and top thickness: the assignment is the last step
    and no case of the fixes runs after it. *)
Theorem generateSuggestion_height_invariant (original : TableConfig)
    (vs : list ValidationMessage) :
  totalHeightMm (generateSuggestion original vs)
  = legHeightMm (generateSuggestion original vs)
    + topThicknessMm (generateSuggestion original vs).
Proof.
  unfold generateSuggestion.
  set (suggested := fold_left applyFix vs original).
  reflexivity.
Qed.

(** With [===] for the comparison: the equality test succeeds unless the
    sum is NaN, the one value [===] separates from itself. *)
Lemma generateSuggestion_height_strict_equal (original : TableConfig)
    (vs : list ValidationMessage) :
  let s := generateSuggestion original vs in
  is_nan (totalHeightMm s) = false ->
  (totalHeightMm s =? legHeightMm s + topThicknessMm s) = true.
Proof.
  intros s Hnan. unfold is_nan in Hnan.
  apply negb_false_iff in Hnan. exact Hnan.
Qed.

(** C9.  The repair is not re-validated: there is a well-typed, invalid
    configuration whose suggestion still has a violation.  For the 45 mm
    composite top with 6 mm faces and a beveled edge, the EDGE-02 fix sets
    the overall thickness to 12 mm, which leaves no core. *)
Theorem suggestion_may_remain_invalid :
  exists c s : TableConfig,
    wellTyped c = true
    /\ isValid (validate c) = false
    /\ suggestedConfig (validate c) = Some s
    /\ violations (validate s) <> [].
Proof.
  exists Samples.beveledComposite.
  eexists. split; [reflexivity|]. split; [reflexivity|].
  split; [vm_compute; reflexivity|].
  vm_compute. discriminate.
Qed.

(** A second scenario: the stated total height hides a stability failure
    that the recomputed height brings out. *)
Example understatedHeight_suggestion_unstable :
  map ruleId (violations (validate Samples.understatedHeight)) = ["HGT-03"]
  /\ option_map (fun s => map ruleId (violations (validate s)))
       (suggestedConfig (validate Samples.understatedHeight))
     = Some ["STAB-01"].
Proof. split; vm_compute; reflexivity. Qed.

End SuggesterProps.

(** ** What each checker can emit *)

Module Findings.
Import Engine.
Local Open Scope float_scope.

Lemma In_pushIf (cond : bool) (x m : ValidationMessage) :
  In m (pushIf cond x) -> cond = true /\ m = x.
Proof.
  destruct cond; simpl; [|tauto].
  intros [H|[]]. split; [reflexivity | symmetry; exact H].
Qed.

Lemma In_pushIf_iff (cond : bool) (x : ValidationMessage) (id : string) :
  In id (map ruleId (pushIf cond x)) <-> cond = true /\ id = ruleId x.
Proof.
  destruct cond; simpl; split.
  - intros [H|[]]. split; [reflexivity | symmetry; exact H].
  - intros [_ H]. left. symmetry. exact H.
  - tauto.
  - intros [H _]. discriminate.
Qed.

(** Take a membership hypothesis on a checker's result apart, down to the
    single pushes. *)
Ltac split_findings H :=
  repeat match type of H with
         | In _ (_ ++ _) => apply in_app_or in H; destruct H as [H|H]
         | In _ (pushIf _ _) =>
           apply In_pushIf in H; destruct H as [_ H]
         | In _ [] => destruct H
         | In _ (if ?b then _ else _) => destruct b
         | In _ (match ?x with _ => _ end) => destruct x
         end.

(** The rule identifiers of each module. *)
Definition compositeIds : list string := ["COMP-01"; "COMP-02"; "COMP-03"].
Definition materialIds : list string := ["MAT-01"; "MAT-02"].
Definition spanIds : list string := ["SPAN-01"; "SPAN-02"].
Definition stabilityIds : list string := ["STAB-01"; "STAB-02"; "STAB-03"].
Definition legIds : list string :=
  ["LEG-01"; "LEG-02"; "LEG-03"; "LEG-04"; "LEG-05";
   "RADIAL-01"; "RADIAL-02"; "RADIAL-03"].
Definition radialIds : list string := ["RADIAL-01"; "RADIAL-02"; "RADIAL-03"].
Definition heightIds : list string := ["HGT-01"; "HGT-03"].
Definition edgeIds : list string := ["EDGE-01"; "EDGE-02"].

Ltac close_ids H := subst; simpl; tauto.

Lemma checkCompositeTop_ids c m :
  In m (CompositeRules.checkCompositeTop c) -> In (ruleId m) compositeIds.
Proof.
  unfold CompositeRules.checkCompositeTop. intro H.
  split_findings H; close_ids H.
Qed.

Lemma checkMaterialThickness_ids c m :
  In m (MaterialRules.checkMaterialThickness c) -> In (ruleId m) materialIds.
Proof.
  unfold MaterialRules.checkMaterialThickness. intro H.
  simpl flat_map in H. split_findings H; close_ids H.
Qed.

Lemma checkSpan_ids c m :
  In m (SpanRules.checkSpan c) -> In (ruleId m) spanIds.
Proof.
  unfold SpanRules.checkSpan. intro H.
  split_findings H; close_ids H.
Qed.

Lemma checkStability_ids c m :
  In m (StabilityRules.checkStability c) -> In (ruleId m) stabilityIds.
Proof.
  unfold StabilityRules.checkStability. intro H.
  split_findings H; close_ids H.
Qed.

Lemma checkRadial_ids c m :
  In m (LegRules.checkRadial c) -> In (ruleId m) radialIds.
Proof.
  unfold LegRules.checkRadial. intro H.
  split_findings H; close_ids H.
Qed.

Lemma checkLegRules_ids c m :
  In m (LegRules.checkLegRules c) -> In (ruleId m) legIds.
Proof.
  unfold LegRules.checkLegRules.
  destruct (LegProfileType_beq _ _).
  - intro H. apply checkRadial_ids in H. simpl in *. tauto.
  - unfold LegRules.checkStandard. intro H.
    split_findings H; close_ids H.
Qed.

Lemma checkHeight_ids c m :
  In m (HeightRules.checkHeight c) -> In (ruleId m) heightIds.
Proof.
  unfold HeightRules.checkHeight. intro H.
  split_findings H; close_ids H.
Qed.

Lemma checkEdge_ids c m :
  In m (EdgeRules.checkEdge c) -> In (ruleId m) edgeIds.
Proof.
  unfold EdgeRules.checkEdge. intro H.
  split_findings H; destruct (TopEdgeFinish_beq _ _); close_ids H.
Qed.

(** Membership in the engine's concatenation, checker by checker. *)
Lemma In_allMessages c m :
  In m (allMessages c) <->
  In m (CompositeRules.checkCompositeTop c)
  \/ In m (MaterialRules.checkMaterialThickness c)
  \/ In m (SpanRules.checkSpan c)
  \/ In m (StabilityRules.checkStability c)
  \/ In m (LegRules.checkLegRules c)
  \/ In m (HeightRules.checkHeight c)
  \/ In m (EdgeRules.checkEdge c).
Proof. unfold allMessages. rewrite !in_app_iff. tauto. Qed.

(** Every finding of [validate], violation or warning, is one of
    [allMessages]. *)
Lemma In_validate_findings c m :
  In m (violations (validate c) ++ warnings (validate c)) ->
  In m (allMessages c).
Proof.
  rewrite in_app_iff, EngineProps.validate_violations,
    EngineProps.validate_warnings, !filter_In. tauto.
Qed.

End Findings.

(** ** Radial-halfcylinder bases *)

Module RadialProps.
Import Engine Findings.
Local Open Scope float_scope.

Section Radial.
Variable c : TableConfig.
Hypothesis Hradial : legProfileType c = radial_halfcylinder.

Lemma radial_not_pedestalSupport : SpanRules.isPedestalSupport c = false.
Proof.
  unfold SpanRules.isPedestalSupport. rewrite Hradial.
  simpl. apply andb_false_r.
Qed.

Lemma radial_isRadial : StabilityRules.isRadial c = true.
Proof. unfold StabilityRules.isRadial. rewrite Hradial. reflexivity. Qed.

(** The span checker is left with the multi-leg rule. *)
Lemma radial_checkSpan m :
  In m (SpanRules.checkSpan c) -> ruleId m = "SPAN-01".
Proof.
  unfold SpanRules.checkSpan. rewrite radial_not_pedestalSupport.
  intro H. split_findings H; subst; reflexivity.
Qed.

(** The stability checker is left with the footprint ratio. *)
Lemma radial_checkStability :
  StabilityRules.checkStability c
  = pushIf (StabilityRules.footprint c / totalHeightMm c
            <? StabilityRules.MIN_STABILITY_RATIO)
           (mkMessage "STAB-01" "topWidthMm").
Proof.
  unfold StabilityRules.checkStability. rewrite radial_isRadial.
  simpl. rewrite app_nil_r. reflexivity.
Qed.

(** The leg checker returns from the radial rule set. *)
Lemma radial_checkLegRules :
  LegRules.checkLegRules c = LegRules.checkRadial c.
Proof. unfold LegRules.checkLegRules. rewrite Hradial. reflexivity. Qed.

(** The identifiers left to a radial base. *)
Definition radialFindingIds : list string :=
  compositeIds ++ materialIds ++ ["SPAN-01"] ++ ["STAB-01"] ++ radialIds
  ++ heightIds ++ edgeIds.

Lemma radial_allMessages_ids m :
  In m (allMessages c) -> In (ruleId m) radialFindingIds.
Proof.
  rewrite In_allMessages. unfold radialFindingIds. rewrite !in_app_iff.
  intros [H|[H|[H|[H|[H|[H|H]]]]]].
  - left. apply (checkCompositeTop_ids _ _ H).
  - right; left. apply (checkMaterialThickness_ids _ _ H).
  - right; right; left. rewrite (radial_checkSpan _ H). left. reflexivity.
  - right; right; right; left. rewrite radial_checkStability in H.
    apply In_pushIf in H. destruct H as [_ ->]. left. reflexivity.
  - right; right; right; right; left. rewrite radial_checkLegRules in H.
    apply (checkRadial_ids _ _ H).
  - right; right; right; right; right; left. apply (checkHeight_ids _ _ H).
  - right; right; right; right; right; right. apply (checkEdge_ids _ _ H).
Qed.

End Radial.

(** The identifiers a radial base is spared: the standard leg rules, the
    pedestal-style stability rules and the pedestal span rule. *)
Definition pedestalStyleIds : list string :=
  ["LEG-01"; "LEG-02"; "LEG-03"; "LEG-04"; "STAB-02"; "STAB-03"; "SPAN-02"].

Lemma radialFindingIds_spared (id : string) :
  In id radialFindingIds -> ~ In id pedestalStyleIds.
Proof.
  unfold radialFindingIds, pedestalStyleIds. simpl.
  intros H1 H2.
  repeat (destruct H1 as [<-|H1];
          [repeat (destruct H2 as [H2|H2]; [discriminate H2|]); exact H2|]).
  exact H1.
Qed.

(** C4.  For a configuration whose leg profile is the radial halfcylinder,
    no finding of [validate], violation or warning, bears one of LEG-01,
    LEG-02, LEG-03, LEG-04, STAB-02, STAB-03 or SPAN-02. *)
Theorem radial_no_pedestal_style_findings (c : TableConfig)
    (m : ValidationMessage) :
  legProfileType c = radial_halfcylinder ->
  In m (violations (validate c) ++ warnings (validate c)) ->
  ~ In (ruleId m) pedestalStyleIds.
Proof.
  intros Hradial Hin. apply radialFindingIds_spared.
  apply (radial_allMessages_ids c Hradial).
  apply In_validate_findings, Hin.
Qed.

Lemma radial_no_pedestal_style_findings_witness :
  ~ In "RADIAL-01" pedestalStyleIds.
Proof.
  apply (radial_no_pedestal_style_findings Samples.radialNarrow
           (mkMessage "RADIAL-01" "legRadialSpreadMm")).
  - reflexivity.
  - vm_compute. left. reflexivity.
Defined.

(** C10.  For a radial-halfcylinder configuration with no spread given:
    RADIAL-01 is not among the findings and no finding is reported on the
    spread field; the footprint of the stability ratio is the top width, so
    STAB-01 is emitted exactly when width over total height is below the
    minimum ratio. *)
Theorem radial_missing_spread_skipped (c : TableConfig) :
  legProfileType c = radial_halfcylinder ->
  legRadialSpreadMm c = None ->
  (forall m, In m (violations (validate c) ++ warnings (validate c)) ->
             ruleId m <> "RADIAL-01" /\ field m <> "legRadialSpreadMm")
  /\ StabilityRules.footprint c = topWidthMm c
  /\ (In "STAB-01" (map ruleId (StabilityRules.checkStability c))
      <-> (topWidthMm c / totalHeightMm c
           <? StabilityRules.MIN_STABILITY_RATIO) = true).
Proof.
  intros Hradial Hspread.
  assert (Hfoot : StabilityRules.footprint c = topWidthMm c).
  { unfold StabilityRules.footprint. rewrite Hspread.
    destruct (StabilityRules.isRadial c); reflexivity. }
  split; [|split].
  - intros m Hin. apply In_validate_findings, In_allMessages in Hin.
    destruct Hin as [H|[H|[H|[H|[H|[H|H]]]]]].
    + unfold CompositeRules.checkCompositeTop in H.
      split_findings H; subst; split; discriminate.
    + unfold MaterialRules.checkMaterialThickness in H.
      simpl flat_map in H. split_findings H; subst; split; discriminate.
    + unfold SpanRules.checkSpan in H.
      split_findings H; subst; split; discriminate.
    + rewrite (radial_checkStability c Hradial) in H.
      apply In_pushIf in H. destruct H as [_ ->]. split; discriminate.
    + rewrite (radial_checkLegRules c Hradial) in H.
      unfold LegRules.checkRadial in H. rewrite Hspread in H.
      split_findings H; subst; split; discriminate.
    + unfold HeightRules.checkHeight in H.
      split_findings H; subst; split; discriminate.
    + unfold EdgeRules.checkEdge in H.
      split_findings H; destruct (TopEdgeFinish_beq _ _); subst;
        split; discriminate.
  - exact Hfoot.
  - rewrite (radial_checkStability c Hradial), Hfoot, In_pushIf_iff.
    simpl. tauto.
Qed.

Lemma radial_missing_spread_skipped_witness :
  (forall m,
      In m (violations (validate Samples.radialNoSpread)
            ++ warnings (validate Samples.radialNoSpread)) ->
      ruleId m <> "RADIAL-01" /\ field m <> "legRadialSpreadMm")
  /\ StabilityRules.footprint Samples.radialNoSpread = 900
  /\ (In "STAB-01"
        (map ruleId (StabilityRules.checkStability Samples.radialNoSpread))
      <-> (900 / 750 <? StabilityRules.MIN_STABILITY_RATIO) = true).
Proof.
  apply (radial_missing_spread_skipped Samples.radialNoSpread);
    reflexivity.
Defined.

End RadialProps.

(** ** The order of the findings *)

Module OrderProps.
Import Engine Findings.

Inductive Checker :=
| CkMaterial | CkSpan | CkStability | CkLeg | CkHeight | CkEdge | CkComposite.

Scheme Equality for Checker.

Definition idsOf (k : Checker) : list string :=
  match k with
  | CkMaterial => materialIds
  | CkSpan => spanIds
  | CkStability => stabilityIds
  | CkLeg => legIds
  | CkHeight => heightIds
  | CkEdge => edgeIds
  | CkComposite => compositeIds
  end.

(** The place a rule identifier takes in a sequence of checkers: the index
    of the checker that owns it, or the length of the sequence when none
    does. *)
Fixpoint place (order : list Checker) (id : string) : nat :=
  match order with
  | [] => 0
  | k :: rest =>
    if existsb (String.eqb id) (idsOf k) then 0 else S (place rest id)
  end.

(** A list of findings follows a sequence of checkers when no finding of a
    later checker stands before a finding of an earlier one. *)
Definition follows (order : list Checker) (l : list ValidationMessage)
  : Prop :=
  StronglySorted
    (fun a b => place order (ruleId a) <= place order (ruleId b)) l.

(** The sequence the design document gives, composite last. *)
Definition documentedOrder : list Checker :=
  [CkMaterial; CkSpan; CkStability; CkLeg; CkHeight; CkEdge; CkComposite].

(** The sequence of the array literal in [validate], composite first. *)
Definition engineOrder : list Checker :=
  [CkComposite; CkMaterial; CkSpan; CkStability; CkLeg; CkHeight; CkEdge].

Section Blocks.
Variable order : list Checker.
Let pos (m : ValidationMessage) : nat := place order (ruleId m).

(** A block of findings at one place [k], put before a list that follows
    the order and starts after [k]. *)
Lemma block_step (k : nat) (l1 l2 : list ValidationMessage) :
  Forall (fun m => pos m = k) l1 ->
  follows order l2 /\ Forall (fun m => S k <= pos m) l2 ->
  follows order (l1 ++ l2) /\ Forall (fun m => k <= pos m) (l1 ++ l2).
Proof.
  intros H1 [Hs H2]. split.
  - induction l1 as [|a l1 IH]; simpl; [exact Hs|].
    inversion H1 as [|? ? Ha Hl1]; subst.
    constructor; [apply IH, Hl1|].
    apply Forall_app. split.
    + eapply Forall_impl; [|exact Hl1]. simpl. intros b Hb.
      unfold pos in *. lia.
    + eapply Forall_impl; [|exact H2]. simpl. intros b Hb.
      unfold pos in *. lia.
  - apply Forall_app. split.
    + eapply Forall_impl; [|exact H1]. simpl. intros; lia.
    + eapply Forall_impl; [|exact H2]. simpl. intros; lia.
Qed.

Lemma block_last (k : nat) (l : list ValidationMessage) :
  Forall (fun m => pos m = k) l ->
  follows order l /\ Forall (fun m => k <= pos m) l.
Proof.
  intro H. rewrite <- (app_nil_r l).
  apply block_step; [exact H|]. split; constructor.
Qed.

Lemma follows_filter (f : ValidationMessage -> bool)
    (l : list ValidationMessage) :
  follows order l -> follows order (filter f l).
Proof.
  unfold follows. induction 1 as [|a l Hs IH Ha]; simpl.
  - constructor.
  - destruct (f a); [|exact IH].
    constructor; [exact IH|].
    rewrite Forall_forall in *. intros b Hb.
    apply filter_In in Hb. apply Ha, Hb.
Qed.
End Blocks.

(** The place of each checker's findings in the engine's sequence. *)
Lemma ids_place (ids : list string) (k : nat)
    (l : list ValidationMessage) :
  (forall m, In m l -> In (ruleId m) ids) ->
  forallb (fun id => Nat.eqb (place engineOrder id) k) ids = true ->
  Forall (fun m => place engineOrder (ruleId m) = k) l.
Proof.
  intros Hids Hall. rewrite forallb_forall in Hall.
  apply Forall_forall. intros m Hm.
  apply Nat.eqb_eq, Hall, Hids, Hm.
Qed.

Lemma allMessages_follows_engineOrder (c : TableConfig) :
  follows engineOrder (allMessages c).
Proof.
  unfold allMessages.
  refine (proj1 (block_step engineOrder 0 _ _ _ _)).
  { exact (ids_place compositeIds 0 _ (checkCompositeTop_ids c) eq_refl). }
  apply (block_step engineOrder 1).
  { exact (ids_place materialIds 1 _ (checkMaterialThickness_ids c)
             eq_refl). }
  apply (block_step engineOrder 2).
  { exact (ids_place spanIds 2 _ (checkSpan_ids c) eq_refl). }
  apply (block_step engineOrder 3).
  { exact (ids_place stabilityIds 3 _ (checkStability_ids c) eq_refl). }
  apply (block_step engineOrder 4).
  { exact (ids_place legIds 4 _ (checkLegRules_ids c) eq_refl). }
  apply (block_step engineOrder 5).
  { exact (ids_place heightIds 5 _ (checkHeight_ids c) eq_refl). }
  apply (block_last engineOrder 6).
  exact (ids_place edgeIds 6 _ (checkEdge_ids c) eq_refl).
Qed.

(** The composite top with thin faces on a long top (TC-17 at 3500 mm):
    the composite finding comes first. *)
Example thinFacesLong_violations :
  map ruleId (violations (validate Samples.thinFacesLong))
  = ["COMP-01"; "SPAN-01"].
Proof. vm_compute. reflexivity. Qed.

(** C8, as stated, fails: the violations of the sample above
    do not follow the sequence material, span, stability, leg, height, edge,
    composite, since COMP-01 stands before SPAN-01. *)
Lemma documentedOrder_not_followed :
  ~ follows documentedOrder (violations (validate Samples.thinFacesLong)).
Proof.
  intro Hv. vm_compute in Hv.
  inversion Hv as [|a l _ Hall]; subst.
  inversion Hall as [|b l' Hle _]; subst.
  vm_compute in Hle. lia.
Qed.

(** C8, amended.  [validate] concatenates the checkers' results in the
    sequence composite, material, span, stability, leg, height, edge, and
    both the list of all findings and the list of violations follow that
    sequence: composite findings come first and edge findings last. *)
Theorem validate_findings_follow_engineOrder (c : TableConfig) :
  allMessages c
  = CompositeRules.checkCompositeTop c
    ++ MaterialRules.checkMaterialThickness c
    ++ SpanRules.checkSpan c
    ++ StabilityRules.checkStability c
    ++ LegRules.checkLegRules c
    ++ HeightRules.checkHeight c
    ++ EdgeRules.checkEdge c
  /\ follows engineOrder (allMessages c)
  /\ follows engineOrder (violations (validate c))
  /\ follows engineOrder (warnings (validate c)).
Proof.
  split; [reflexivity|].
  split; [apply allMessages_follows_engineOrder|].
  split.
  - rewrite EngineProps.validate_violations.
    apply follows_filter, allMessages_follows_engineOrder.
  - rewrite EngineProps.validate_warnings.
    apply follows_filter, allMessages_follows_engineOrder.
Qed.

End OrderProps.

(** ** Exact values of binary64 numbers *)

Module Exact.
Local Open Scope Z_scope.

(** [m * 2^e] counted in units of 2^-1074, the smallest positive binary64
    value. *)
Definition magnitude (m : positive) (e : Z) : Z :=
  Zpos m * 2 ^ (e + 1074).

(** The exact value of a finite float, as an integer number of units;
    infinities and NaN have none. *)
Definition unitsSF (x : spec_float) : option Z :=
  match x with
  | S754_zero _ => Some 0
  | S754_finite s m e =>
    Some (if s then - magnitude m e else magnitude m e)
  | _ => None
  end.

Definition units (x : float) : option Z := unitsSF (Prim2SF x).

(** The mantissa of a valid binary64 value. *)
Lemma digits2_pos_bounds (m : positive) :
  2 ^ (Zpos (digits2_pos m) - 1) <= Zpos m < 2 ^ Zpos (digits2_pos m).
Proof.
  induction m as [p IH|p IH|]; simpl digits2_pos.
  - rewrite Pos2Z.inj_succ.
    replace (Z.succ (Zpos (digits2_pos p)) - 1)
      with (Z.succ (Zpos (digits2_pos p) - 1)) by lia.
    rewrite !Z.pow_succ_r by lia. lia.
  - rewrite Pos2Z.inj_succ.
    replace (Z.succ (Zpos (digits2_pos p)) - 1)
      with (Z.succ (Zpos (digits2_pos p) - 1)) by lia.
    rewrite !Z.pow_succ_r by lia. lia.
  - simpl. lia.
Qed.

Lemma bounded_facts (m : positive) (e : Z) :
  bounded prec emax m e = true ->
  - 1074 <= e /\ Zpos m < 2 ^ 53 /\ (- 1074 < e -> 2 ^ 52 <= Zpos m).
Proof.
  unfold bounded, canonical_mantissa, fexp, emin, prec, emax.
  intro H. apply andb_true_iff in H. destruct H as [H _].
  apply Z.eqb_eq in H.
  pose proof (digits2_pos_bounds m) as [Hlo Hhi].
  set (d := Zpos (digits2_pos m)) in *.
  assert (Hd : d <= 53) by lia.
  split; [lia|]. split.
  - eapply Z.lt_le_trans; [exact Hhi|].
    apply Z.pow_le_mono_r; lia.
  - intro He. assert (d = 53) by lia.
    replace 52 with (d - 1) by lia. exact Hlo.
Qed.

Lemma scaled_lt (m1 m2 : positive) (e1 e2 : Z) :
  bounded prec emax m1 e1 = true ->
  bounded prec emax m2 e2 = true ->
  e1 < e2 ->
  magnitude m1 e1 < magnitude m2 e2.
Proof.
  intros H1 H2 He. unfold magnitude.
  apply bounded_facts in H1. destruct H1 as (He1 & Hm1 & _).
  apply bounded_facts in H2. destruct H2 as (He2 & _ & Hm2).
  specialize (Hm2 ltac:(lia)).
  assert (Hpos : 0 < 2 ^ (e1 + 1074)) by (apply Z.pow_pos_nonneg; lia).
  assert (Hstep : 2 * 2 ^ (e1 + 1074) <= 2 ^ (e2 + 1074)).
  { rewrite <- Z.pow_succ_r by lia. apply Z.pow_le_mono_r; lia. }
  change (2 ^ 53) with (2 * 2 ^ 52) in Hm1.
  set (X := 2 ^ (e1 + 1074)) in *. set (Y := 2 ^ (e2 + 1074)) in *.
  set (K := 2 ^ 52) in *.
  assert (0 < K) by (unfold K; lia).
  nia.
Qed.

Lemma scaled_pos (m : positive) (e : Z) :
  - 1074 <= e -> 0 < magnitude m e.
Proof.
  intro He. unfold magnitude. apply Z.mul_pos_pos; [lia|]. apply Z.pow_pos_nonneg; lia.
Qed.

(** On valid operands that have a value, [SFcompare] is the comparison of
    the values. *)
Lemma SFcompare_units (x y : spec_float) (a b : Z) :
  valid_binary x = true -> valid_binary y = true ->
  unitsSF x = Some a -> unitsSF y = Some b ->
  SFcompare x y = Some (a ?= b).
Proof.
  intros Vx Vy Hx Hy.
  destruct x as [sx|sx| |sx mx ex]; try discriminate Hx;
    destruct y as [sy|sy| |sy my ey]; try discriminate Hy;
    cbv [unitsSF] in Hx, Hy; injection Hx as <-; injection Hy as <-;
    cbv [valid_binary] in Vx, Vy; cbv [SFcompare]; f_equal; symmetry.
  - pose proof (bounded_facts _ _ Vy) as (He & _).
    pose proof (scaled_pos my ey He).
    destruct sy;
      [apply Z.compare_gt_iff | apply Z.compare_lt_iff]; lia.
  - pose proof (bounded_facts _ _ Vx) as (He & _).
    pose proof (scaled_pos mx ex He).
    destruct sx;
      [apply Z.compare_lt_iff | apply Z.compare_gt_iff]; lia.
  - pose proof (bounded_facts _ _ Vx) as (Hex & _).
    pose proof (bounded_facts _ _ Vy) as (Hey & _).
    pose proof (scaled_pos mx ex Hex) as Px.
    pose proof (scaled_pos my ey Hey) as Py.
    assert (Hsame : ex = ey ->
              (magnitude mx ex ?= magnitude my ey)
              = Pos.compare_cont Eq mx my).
    { intros <-. unfold magnitude. rewrite Pos.compare_cont_spec. simpl Pos.switch_Eq.
      change (Pos.compare mx my) with (Zpos mx ?= Zpos my).
      assert (P : 0 < 2 ^ (ex + 1074)) by (apply Z.pow_pos_nonneg; lia).
      destruct (Z.compare_spec (Zpos mx) (Zpos my)) as [E|L|G].
      - rewrite E. apply Z.compare_refl.
      - apply Z.compare_lt_iff. nia.
      - apply Z.compare_gt_iff. nia. }
    destruct sx, sy.
    + rewrite Z.compare_opp.
      destruct (Z.compare_spec ex ey) as [Heq|Hlt|Hgt].
      * rewrite Z.compare_antisym, (Hsame Heq). reflexivity.
      * pose proof (scaled_lt _ _ _ _ Vx Vy Hlt).
        apply Z.compare_gt_iff. lia.
      * pose proof (scaled_lt _ _ _ _ Vy Vx Hgt).
        apply Z.compare_lt_iff. lia.
    + apply Z.compare_lt_iff. lia.
    + apply Z.compare_gt_iff. lia.
    + destruct (Z.compare_spec ex ey) as [Heq|Hlt|Hgt].
      * exact (Hsame Heq).
      * pose proof (scaled_lt _ _ _ _ Vx Vy Hlt).
        apply Z.compare_lt_iff. lia.
      * pose proof (scaled_lt _ _ _ _ Vy Vx Hgt).
        apply Z.compare_gt_iff. lia.
Qed.

(** The primitive comparisons read on exact values. *)
Lemma ltb_units (x y : float) (a b : Z) :
  units x = Some a -> units y = Some b ->
  (x <? y)%float = true -> a < b.
Proof.
  intros Hx Hy. rewrite ltb_spec. unfold SFltb.
  rewrite (SFcompare_units _ _ a b (Prim2SF_valid x) (Prim2SF_valid y) Hx Hy).
  destruct (Z.compare_spec a b) as [E|L|G]; intro H; try discriminate H.
  exact L.
Qed.

Lemma leb_units (x y : float) (a b : Z) :
  units x = Some a -> units y = Some b ->
  (x <=? y)%float = true -> a <= b.
Proof.
  intros Hx Hy. rewrite leb_spec. unfold SFleb.
  rewrite (SFcompare_units _ _ a b (Prim2SF_valid x) (Prim2SF_valid y) Hx Hy).
  destruct (Z.compare_spec a b) as [E|L|G]; intro H; try discriminate H; lia.
Qed.

(** Ten millimetres. *)
Definition tenUnits : Z := 10 * 2 ^ 1074.

Lemma units_ten : units 10%float = Some tenUnits.
Proof. vm_compute. reflexivity. Qed.

End Exact.

(** ** The composite checker *)

Module CompositeProps.
Import CompositeRules Findings.
Local Open Scope float_scope.

(** When COMP-03 is emitted: the two guards of its branch, on the rounded
    core and the rounded minimum total. *)
Lemma COMP03_iff (c : TableConfig) :
  In "COMP-03" (map ruleId (checkCompositeTop c)) <->
  isComposite c = true
  /\ exists face,
       topFaceThicknessMm c = Some face
       /\ (topThicknessMm c <? 2 * face + MIN_CORE_MM) = true
       /\ (MIN_CORE_MM <=? topThicknessMm c - 2 * face) = true.
Proof.
  unfold checkCompositeTop.
  destruct (isComposite c); simpl negb; cbv iota.
  2:{ simpl. split; [tauto | intros [H _]; discriminate H]. }
  destruct (topFaceThicknessMm c) as [face|].
  2:{ simpl. split; [tauto | intros [_ (f & H & _)]; discriminate H]. }
  rewrite !map_app, !in_app_iff, !In_pushIf_iff. simpl ruleId.
  unfold JS.geb. rewrite andb_true_iff. split.
  - intros [[_ H]|[[_ H]|[[H1 H2] _]]]; try discriminate H.
    split; [reflexivity|]. exists face. auto.
  - intros [_ (f & Hf & H1 & H2)]. injection Hf as <-.
    right; right. auto.
Qed.

(** A top 12.000000000000002 mm thick with faces of 1.0000000000000013 mm:
    [2 * face + 10] is halfway between two binary64 values and rounds up,
    [total - 2 * face] is halfway below 10 and rounds to 10. *)
Definition roundingTies : TableConfig :=
  mkConfig sintered_stone 0x1.8000000000001p+3 shape_rectangle 1800 900
    straight (Some composite) (Some 0x1.0000000000006p+0) 4%Z steel square
    60 None 700 false None None 712.

Example roundingTies_arithmetic :
  (2 * 0x1.0000000000006p+0 + 10 = 0x1.8000000000002p+3
   /\ 0x1.8000000000001p+3 - 2 * 0x1.0000000000006p+0 = 10)%float.
Proof. split; vm_compute; reflexivity. Qed.

(** C5, as stated, fails: [roundingTies] is composite with a
    face thickness, and the composite checker emits COMP-03 on it (after
    COMP-01, and without COMP-02). *)
Lemma COMP03_reached_by_rounding :
  isComposite roundingTies = true
  /\ topFaceThicknessMm roundingTies <> None
  /\ In "COMP-03" (map ruleId (checkCompositeTop roundingTies))
  /\ map ruleId (checkCompositeTop roundingTies) = ["COMP-01"; "COMP-03"].
Proof.
  split; [reflexivity|]. split; [discriminate|].
  split; vm_compute; [right; left|]; reflexivity.
Qed.

(** C5, amended.  Whenever the core [total - 2 * face] and the minimum
    total [2 * face + 10] are computed without rounding error, as they are
    for whole-millimetre thicknesses, the composite checker emits no
    COMP-03: in exact arithmetic the two guards of the branch exclude each
    other. *)
Theorem COMP03_unreachable_when_exact (c : TableConfig) (face : JS.number)
    (vt vd : Z) :
  topFaceThicknessMm c = Some face ->
  Exact.units (topThicknessMm c) = Some vt ->
  Exact.units (2 * face) = Some vd ->
  Exact.units (topThicknessMm c - 2 * face) = Some (vt - vd)%Z ->
  Exact.units (2 * face + MIN_CORE_MM) = Some (vd + Exact.tenUnits)%Z ->
  ~ In "COMP-03" (map ruleId (checkCompositeTop c)).
Proof.
  intros Hface Ht Hd Hcore Hmin Hin.
  apply COMP03_iff in Hin.
  destruct Hin as [_ (f & Hf & Hlt & Hle)].
  rewrite Hface in Hf. injection Hf as <-.
  pose proof (Exact.ltb_units _ _ _ _ Ht Hmin Hlt) as H1.
  pose proof (Exact.leb_units _ _ _ _ Exact.units_ten Hcore Hle) as H2.
  lia.
Qed.

Lemma COMP03_unreachable_when_exact_witness :
  ~ In "COMP-03" (map ruleId (checkCompositeTop Samples.thinFaces)).
Proof.
  apply (COMP03_unreachable_when_exact Samples.thinFaces 4
           (30 * 2 ^ 1074) (8 * 2 ^ 1074));
    vm_compute; reflexivity.
Defined.

End CompositeProps.

(** ** The span checker *)

Module SpanProps.
Import SpanRules Findings.
Local Open Scope float_scope.

(** A tier applies to a top when its material list contains the top's
    material and the top's thickness reaches its minimum thickness. *)
Definition tierApplies (c : TableConfig) (r : SpanLimit) : bool :=
  MaterialRules.includes (materials r) (topMaterial c)
  && JS.geb (topThicknessMm c) (minThicknessMm r).

(** The tier of the design document: among the tiers of the table that
    apply, the one with the highest minimum thickness. *)
Definition highestApplicable (c : TableConfig) (r : SpanLimit) : Prop :=
  In r SPAN_LIMITS_4LEG
  /\ tierApplies c r = true
  /\ forall r', In r' SPAN_LIMITS_4LEG -> tierApplies c r' = true ->
                JS.geb (minThicknessMm r) (minThicknessMm r') = true.

(** The allowed span of a tier: its maximum span, times 1.4 for a composite
    top and times 1.0 for a solid one. *)
Definition allowedSpan (c : TableConfig) (r : SpanLimit) : JS.number :=
  maxSpanMm r * (if isComposite c then 1.4 else 1.0).

(** The sorted candidates of [applicableRule], material by material. *)
Lemma candidates (m : TopMaterial) :
  sort (fun a b => minThicknessMm b - minThicknessMm a)
    (filter (fun r => MaterialRules.includes (materials r) m)
       SPAN_LIMITS_4LEG)
  = match m with
    | sintered_stone =>
      [ mkSpanLimit [sintered_stone; quartz; marble; granite] 30 2400;
        mkSpanLimit [sintered_stone] 20 1800;
        mkSpanLimit [sintered_stone] 12 900 ]
    | _ =>
      [ mkSpanLimit [sintered_stone; quartz; marble; granite] 30 2400;
        mkSpanLimit [quartz; marble; granite] 20 1400 ]
    end.
Proof. destruct m; vm_compute; reflexivity. Qed.

Lemma applicableRule_unfold (c : TableConfig) :
  applicableRule c
  = find (fun r => JS.geb (topThicknessMm c) (minThicknessMm r))
      (match topMaterial c with
       | sintered_stone =>
         [ mkSpanLimit [sintered_stone; quartz; marble; granite] 30 2400;
           mkSpanLimit [sintered_stone] 20 1800;
           mkSpanLimit [sintered_stone] 12 900 ]
       | _ =>
         [ mkSpanLimit [sintered_stone; quartz; marble; granite] 30 2400;
           mkSpanLimit [quartz; marble; granite] 20 1400 ]
       end).
Proof. unfold applicableRule. rewrite candidates. reflexivity. Qed.

(** Decide the three thickness comparisons of the table. *)
Ltac split_thickness c :=
  destruct (30 <=? topThicknessMm c) eqn:H30;
  destruct (20 <=? topThicknessMm c) eqn:H20;
  destruct (12 <=? topThicknessMm c) eqn:H12.

(** Close a goal from a hypothesis that computes to [false = true] or
    [true = false], possibly after feeding it an evident premise. *)
Ltac absurd_hyp :=
  match goal with
  | H : false = true |- _ => discriminate H
  | H : true = false |- _ => discriminate H
  | H : true = true -> false = true |- _ => discriminate (H eq_refl)
  end.

(** The rule [checkSpan] selects is the highest applicable tier. *)
Lemma applicableRule_highest (c : TableConfig) (r : SpanLimit) :
  applicableRule c = Some r <-> highestApplicable c r.
Proof.
  rewrite applicableRule_unfold. unfold highestApplicable, tierApplies.
  unfold SPAN_LIMITS_4LEG, JS.geb.
  destruct (topMaterial c) eqn:Hm; cbn [find minThicknessMm];
    split_thickness c; split.
  all: try (intro H; injection H as <-;
            split; [simpl; tauto|];
            split; [cbn; rewrite ?H30, ?H20, ?H12; reflexivity|];
            intros r' [<-|[<-|[<-|[<-|[]]]]];
            cbn; rewrite ?H30, ?H20, ?H12; intro; try reflexivity;
            absurd_hyp).
  all: try (intro H; discriminate H).
  all: intros ([<-|[<-|[<-|[<-|[]]]]] & Happ & Hmax);
    cbn in Happ; rewrite ?H30, ?H20, ?H12 in Happ;
    try discriminate Happ; try reflexivity.
  all: try (pose proof
              (Hmax (mkSpanLimit [sintered_stone; quartz; marble; granite]
                       30 2400) ltac:(simpl; tauto)) as H;
            cbn in H; rewrite ?H30, ?H20, ?H12 in H; absurd_hyp).
  all: try (pose proof
              (Hmax (mkSpanLimit [sintered_stone] 20 1800)
                 ltac:(simpl; tauto)) as H;
            cbn in H; rewrite ?H30, ?H20, ?H12 in H; absurd_hyp).
  all: try (pose proof
              (Hmax (mkSpanLimit [quartz; marble; granite] 20 1400)
                 ltac:(simpl; tauto)) as H;
            cbn in H; rewrite ?H30, ?H20, ?H12 in H; absurd_hyp).
Qed.

Lemma applicableRule_none (c : TableConfig) :
  applicableRule c = None <->
  forall r, In r SPAN_LIMITS_4LEG -> tierApplies c r = false.
Proof.
  rewrite applicableRule_unfold. unfold tierApplies.
  unfold SPAN_LIMITS_4LEG, JS.geb.
  destruct (topMaterial c) eqn:Hm; cbn [find minThicknessMm];
    split_thickness c; split.
  all: try (intro H; discriminate H).
  all: try (intros _ r [<-|[<-|[<-|[<-|[]]]]];
            cbn; rewrite ?H30, ?H20, ?H12; reflexivity).
  all: intro H; try reflexivity.
  all: try (pose proof
              (H (mkSpanLimit [sintered_stone; quartz; marble; granite]
                    30 2400) ltac:(simpl; tauto)) as H';
            cbn in H'; rewrite ?H30, ?H20, ?H12 in H'; discriminate H').
  all: try (pose proof
              (H (mkSpanLimit [sintered_stone] 20 1800)
                 ltac:(simpl; tauto)) as H';
            cbn in H'; rewrite ?H30, ?H20, ?H12 in H'; discriminate H').
  all: try (pose proof
              (H (mkSpanLimit [quartz; marble; granite] 20 1400)
                 ltac:(simpl; tauto)) as H';
            cbn in H'; rewrite ?H30, ?H20, ?H12 in H'; discriminate H').
  all: try (pose proof
              (H (mkSpanLimit [sintered_stone] 12 900)
                 ltac:(simpl; tauto)) as H';
            cbn in H'; rewrite ?H30, ?H20, ?H12 in H'; discriminate H').
Qed.

(** The two findings of [checkSpan], each with the value it compares. *)
Lemma SPAN02_iff (c : TableConfig) :
  In "SPAN-02" (map ruleId (checkSpan c)) <->
  isPedestalSupport c = true
  /\ JS.gtb (effectiveSpan c) (pedestalMaxDiag c) = true.
Proof.
  unfold checkSpan. destruct (isPedestalSupport c).
  - rewrite In_pushIf_iff. simpl. tauto.
  - destruct (isMultiLeg c).
    + rewrite In_pushIf_iff. simpl.
      split; [intros [_ H]; discriminate H | intros [H _]; discriminate H].
    + simpl. split; [tauto | intros [H _]; discriminate H].
Qed.

Lemma SPAN01_iff (c : TableConfig) :
  In "SPAN-01" (map ruleId (checkSpan c)) <->
  isPedestalSupport c = false
  /\ isMultiLeg c = true
  /\ exists r, applicableRule c = Some r
               /\ JS.gtb (topLengthMm c) (maxSpanMm r * compositeMultiplier c)
                  = true.
Proof.
  unfold checkSpan. destruct (isPedestalSupport c).
  - rewrite In_pushIf_iff. simpl.
    split; [intros [_ H]; discriminate H | intros [H _]; discriminate H].
  - destruct (isMultiLeg c).
    + rewrite In_pushIf_iff. simpl.
      destruct (applicableRule c) as [r|].
      * split.
        -- intros [H _]. repeat split. exists r. split; [reflexivity|exact H].
        -- intros (_ & _ & r' & Hr & H). injection Hr as <-. tauto.
      * split; [intros [H _]; discriminate H|].
        intros (_ & _ & r' & Hr & _). discriminate Hr.
    + simpl. split; [tauto | intros (_ & H & _); discriminate H].
Qed.

(** C6.  For 2, 4 or 6 legs on a profile that is neither pedestal nor
    radial, the span checker emits SPAN-01 exactly when some tier is the
    highest applicable one (its material list contains the top's material,
    the top's thickness reaches its minimum, and no applicable tier has a
    higher minimum) and the span the checker measures, the top's length,
    exceeds that tier's maximum span times 1.4 (composite) or 1.0 (solid);
    when no tier applies the checker emits nothing. *)
Theorem SPAN01_iff_highest_tier_exceeded (c : TableConfig) :
  isMultiLeg c = true ->
  legProfileType c <> pedestal ->
  legProfileType c <> radial_halfcylinder ->
  (In "SPAN-01" (map ruleId (checkSpan c)) <->
   exists r, highestApplicable c r
             /\ JS.gtb (topLengthMm c) (allowedSpan c r) = true)
  /\ ((forall r, In r SPAN_LIMITS_4LEG -> tierApplies c r = false) ->
      checkSpan c = []).
Proof.
  intros Hlegs Hped Hrad.
  assert (Hsupport : isPedestalSupport c = false).
  { unfold isPedestalSupport, isMultiLeg in *.
    destruct (legProfileType c); try (now elim Hped); try (now elim Hrad);
      simpl; rewrite ?orb_false_r, ?andb_true_r;
      apply Z.eqb_neq; intro H1; rewrite H1 in Hlegs; discriminate Hlegs. }
  split.
  - rewrite SPAN01_iff. unfold allowedSpan, compositeMultiplier. split.
    + intros (_ & _ & r & Hr & Hgt). exists r.
      split; [apply applicableRule_highest, Hr | exact Hgt].
    + intros (r & Hr & Hgt). repeat split; try assumption.
      exists r. split; [apply applicableRule_highest, Hr | exact Hgt].
  - intro Hnone. apply applicableRule_none in Hnone.
    unfold checkSpan. rewrite Hsupport, Hlegs, Hnone. reflexivity.
Qed.

Lemma SPAN01_iff_highest_tier_exceeded_witness :
  (In "SPAN-01" (map ruleId (checkSpan Samples.thinFacesLong)) <->
   exists r, highestApplicable Samples.thinFacesLong r
             /\ JS.gtb 3500 (allowedSpan Samples.thinFacesLong r) = true)
  /\ ((forall r, In r SPAN_LIMITS_4LEG ->
                 tierApplies Samples.thinFacesLong r = false) ->
      checkSpan Samples.thinFacesLong = []).
Proof.
  apply (SPAN01_iff_highest_tier_exceeded Samples.thinFacesLong).
  - reflexivity.
  - discriminate.
  - discriminate.
Defined.

(** The composite sample is over the limit of its tier although the tier
    allows 1.4 times 2400 mm. *)
Example thinFacesLong_span :
  applicableRule Samples.thinFacesLong
  = Some (mkSpanLimit [sintered_stone; quartz; marble; granite] 30 2400)
  /\ allowedSpan Samples.thinFacesLong
       (mkSpanLimit [sintered_stone; quartz; marble; granite] 30 2400)
     = 3360
  /\ map ruleId (checkSpan Samples.thinFacesLong) = ["SPAN-01"].
Proof. repeat split; vm_compute; reflexivity. Qed.

(** The span checker as the design document words it: the effective span is
    the value compared in the pedestal branch and in the multi-leg branch
    alike.  It differs from [checkSpan] in the local [span] only. *)
Definition checkSpanDocumented (config : TableConfig)
  : list ValidationMessage :=
  if isPedestalSupport config then
    pushIf (JS.gtb (effectiveSpan config) (pedestalMaxDiag config))
           (mkMessage "SPAN-02" "topLengthMm")
  else if isMultiLeg config then
    let span := effectiveSpan config in
    pushIf (match applicableRule config with
            | Some r => JS.gtb span (maxSpanMm r * compositeMultiplier config)
            | None => false
            end)
           (mkMessage "SPAN-01" "topLengthMm")
  else [].

(** C7, as stated, fails: the base table (TC-01), 1800 by 900
    on four legs, has an effective span (its diagonal) over the 1800 mm its
    tier allows, so a checker comparing the effective span emits SPAN-01;
    [checkSpan], which compares the length, emits nothing. *)
Lemma multiLeg_span_is_not_effectiveSpan :
  isMultiLeg Samples.base = true
  /\ applicableRule Samples.base = Some (mkSpanLimit [sintered_stone] 20 1800)
  /\ JS.gtb (effectiveSpan Samples.base) 1800 = true
  /\ checkSpanDocumented Samples.base = [mkMessage "SPAN-01" "topLengthMm"]
  /\ checkSpan Samples.base = []
  /\ checkSpan Samples.base <> checkSpanDocumented Samples.base.
Proof.
  repeat split; try (vm_compute; reflexivity).
  vm_compute. discriminate.
Qed.

(** C7, amended.  The effective span, the length of a round top and
    otherwise the diagonal of length and width, is the value compared in
    the pedestal branch (SPAN-02).  The multi-leg branch (SPAN-01) compares
    the top's length, and its result does not depend on the width. *)
Theorem span_values_compared (c : TableConfig) :
  effectiveSpan c
  = (if TopShapeType_beq (topShapeType c) shape_round then topLengthMm c
     else JS.Math_sqrt (JS.sq (topLengthMm c) + JS.sq (topWidthMm c)))
  /\ (In "SPAN-02" (map ruleId (checkSpan c)) <->
      isPedestalSupport c = true
      /\ JS.gtb (effectiveSpan c) (pedestalMaxDiag c) = true)
  /\ (In "SPAN-01" (map ruleId (checkSpan c)) <->
      isPedestalSupport c = false
      /\ isMultiLeg c = true
      /\ exists r, applicableRule c = Some r
                   /\ JS.gtb (topLengthMm c)
                        (maxSpanMm r * compositeMultiplier c) = true)
  /\ (forall w, isPedestalSupport c = false ->
                checkSpan (Suggester.set_topWidthMm w c) = checkSpan c).
Proof.
  split; [unfold effectiveSpan; destruct (topShapeType c); reflexivity|].
  split; [apply SPAN02_iff|].
  split; [apply SPAN01_iff|].
  intros w H. unfold checkSpan.
  change (isPedestalSupport (Suggester.set_topWidthMm w c))
    with (isPedestalSupport c).
  rewrite H. reflexivity.
Qed.

Lemma span_values_compared_witness :
  effectiveSpan Samples.base = JS.Math_sqrt (JS.sq 1800 + JS.sq 900)
  /\ (In "SPAN-02" (map ruleId (checkSpan Samples.base)) <->
      isPedestalSupport Samples.base = true
      /\ JS.gtb (effectiveSpan Samples.base) (pedestalMaxDiag Samples.base)
         = true)
  /\ (In "SPAN-01" (map ruleId (checkSpan Samples.base)) <->
      isPedestalSupport Samples.base = false
      /\ isMultiLeg Samples.base = true
      /\ exists r, applicableRule Samples.base = Some r
                   /\ JS.gtb 1800
                        (maxSpanMm r * compositeMultiplier Samples.base)
                      = true)
  /\ (forall w, isPedestalSupport Samples.base = false ->
                checkSpan (Suggester.set_topWidthMm w Samples.base)
                = checkSpan Samples.base).
Proof. exact (span_values_compared Samples.base). Defined.

End SpanProps.

(** ** Whole-millimetre composite tops *)

Module WholeMm.
Import CompositeRules.
Local Open Scope float_scope.

(** The binary64 value of a whole number of millimetres. *)
Definition wholeMm (n : Z) : JS.number := of_uint63 (Uint63.of_Z n).

Definition sameValue (x : option Z) (v : Z) : bool :=
  match x with
  | Some u => Z.eqb u v
  | None => false
  end.

Lemma sameValue_eq (x : option Z) (v : Z) :
  sameValue x v = true -> x = Some v.
Proof.
  destruct x as [u|]; simpl; [|discriminate].
  intro H. apply Z.eqb_eq in H. now subst.
Qed.

(** The total, the doubled face, the core and the minimum total of a top
    [t] mm thick with faces of [f] mm are all computed exactly. *)
Definition exactAt (t f : Z) : bool :=
  let total := wholeMm t in
  let face := wholeMm f in
  let unit := (2 ^ 1074)%Z in
  sameValue (Exact.units total) (t * unit)
  && sameValue (Exact.units (2 * face)) (2 * f * unit)
  && sameValue (Exact.units (total - 2 * face)) (t * unit - 2 * f * unit)
  && sameValue (Exact.units (2 * face + MIN_CORE_MM))
       (2 * f * unit + Exact.tenUnits).

Definition exactUpTo (tmax fmax : nat) : bool :=
  forallb (fun t => forallb (fun f => exactAt (Z.of_nat t) (Z.of_nat f))
                      (seq 0 (S fmax)))
          (seq 0 (S tmax)).

Lemma exactUpTo_spec (tmax fmax : nat) (t f : Z) :
  exactUpTo tmax fmax = true ->
  (0 <= t <= Z.of_nat tmax)%Z -> (0 <= f <= Z.of_nat fmax)%Z ->
  exactAt t f = true.
Proof.
  unfold exactUpTo. intros H Ht Hf.
  rewrite forallb_forall in H.
  specialize (H (Z.to_nat t)). rewrite in_seq in H.
  specialize (H ltac:(lia)).
  rewrite forallb_forall in H.
  specialize (H (Z.to_nat f)). rewrite in_seq in H.
  specialize (H ltac:(lia)).
  rewrite !Z2Nat.id in H by lia. exact H.
Qed.

Lemma exact_100_50 : exactUpTo 100 50 = true.
Proof. vm_compute. reflexivity. Qed.

(** For whole-millimetre thicknesses up to 100 mm overall and 50 mm per
    face (the configurator accepts 6 to 60 and 3 to 30), the composite
    checker emits no COMP-03. *)
Lemma wholeMm_no_COMP03 (c : TableConfig) (t f : Z) :
  (0 <= t <= 100)%Z -> (0 <= f <= 50)%Z ->
  topThicknessMm c = wholeMm t ->
  topFaceThicknessMm c = Some (wholeMm f) ->
  ~ In "COMP-03" (map ruleId (checkCompositeTop c)).
Proof.
  intros Ht Hf Htotal Hface Hin.
  apply CompositeProps.COMP03_iff in Hin.
  destruct Hin as [_ (face & Hf' & Hlt & Hle)].
  rewrite Hface in Hf'. injection Hf' as <-. rewrite Htotal in *.
  pose proof (exactUpTo_spec 100 50 t f exact_100_50 Ht Hf) as He.
  unfold exactAt in He. cbv zeta in He.
  repeat (apply andb_true_iff in He; destruct He as [He ?]).
  repeat match goal with
         | H : sameValue _ _ = true |- _ => apply sameValue_eq in H
         end.
  match goal with
  | H1 : Exact.units (wholeMm t) = _,
    H2 : Exact.units (2 * wholeMm f + MIN_CORE_MM) = _,
    H3 : Exact.units (wholeMm t - 2 * wholeMm f) = _ |- _ =>
    pose proof (Exact.ltb_units _ _ _ _ H1 H2 Hlt);
    pose proof (Exact.leb_units _ _ _ _ Exact.units_ten H3 Hle)
  end.
  lia.
Qed.

End WholeMm.

(* ------------------------------------------------------------------ *)
(** * Further properties *)

(** ** The order of binary64 numbers *)

Module FloatOrder.
Local Open Scope Z_scope.

(** A bound above every finite magnitude. *)
Definition top : Z := 2 ^ 2200.

(** The place of a number on the line: the exact value of a finite number
    in units of 2^-1074, [top] and its opposite for the infinities, none
    for NaN. *)
Definition rankSF (x : spec_float) : option Z :=
  match x with
  | S754_nan => None
  | S754_infinity s => Some (if s then - top else top)
  | S754_zero _ => Some 0
  | S754_finite s m e =>
    Some (if s then - Exact.magnitude m e else Exact.magnitude m e)
  end.

Definition rank (x : float) : option Z := rankSF (Prim2SF x).

Lemma magnitude_lt_top (m : positive) (e : Z) :
  bounded prec emax m e = true -> 0 < Exact.magnitude m e < top.
Proof.
  intro H. pose proof (Exact.bounded_facts m e H) as (He & Hm & _).
  split; [apply Exact.scaled_pos, He|].
  unfold bounded, prec, emax in H. apply andb_true_iff in H.
  destruct H as [_ H]. apply Z.leb_le in H.
  unfold Exact.magnitude, top.
  assert (Hp : 0 < 2 ^ (e + 1074)) by (apply Z.pow_pos_nonneg; lia).
  apply Z.lt_le_trans with (2 ^ 53 * 2 ^ (e + 1074)).
  - apply Z.mul_lt_mono_pos_r; assumption.
  - rewrite <- Z.pow_add_r by lia. apply Z.pow_le_mono_r; lia.
Qed.

Lemma Some_inj {A} (x y : A) : Some x = Some y -> x = y.
Proof. intro H. congruence. Qed.

(** On valid operands, [SFcompare] is the comparison of the ranks, and
    it is undefined exactly when an operand is NaN. *)
Lemma SFcompare_rank (x y : spec_float) (a b : Z) :
  valid_binary x = true -> valid_binary y = true ->
  rankSF x = Some a -> rankSF y = Some b ->
  SFcompare x y = Some (a ?= b).
Proof.
  intros Vx Vy Hx Hy.
  destruct x as [sx|sx| |sx mx ex]; try discriminate Hx;
    destruct y as [sy|sy| |sy my ey]; try discriminate Hy;
    try (apply Exact.SFcompare_units; assumption);
    unfold rankSF in Hx, Hy; apply Some_inj in Hx, Hy; subst a b;
    unfold valid_binary in Vx, Vy;
    try pose proof (magnitude_lt_top _ _ Vx);
    try pose proof (magnitude_lt_top _ _ Vy);
    assert (Ht : 0 < top) by (unfold top; apply Z.pow_pos_nonneg; lia);
    unfold SFcompare; f_equal; symmetry;
    try destruct sx; try destruct sy;
    first [ apply Z.compare_eq_iff; lia
          | apply Z.compare_lt_iff; lia
          | apply Z.compare_gt_iff; lia ].
Qed.

Lemma rank_valid (x : float) : valid_binary (Prim2SF x) = true.
Proof. apply Prim2SF_valid. Qed.

(** The primitive comparisons, read on ranks. *)
Lemma ltb_rank (x y : float) :
  (x <? y)%float
  = match rank x, rank y with
    | Some a, Some b => a <? b
    | _, _ => false
    end.
Proof.
  rewrite ltb_spec. unfold SFltb, rank.
  destruct (rankSF (Prim2SF x)) as [a|] eqn:Hx.
  - destruct (rankSF (Prim2SF y)) as [b|] eqn:Hy.
    + rewrite (SFcompare_rank _ _ a b (rank_valid x) (rank_valid y) Hx Hy).
      destruct (Z.ltb_spec a b) as [L|L].
      * apply Z.compare_lt_iff in L. rewrite L. reflexivity.
      * destruct (a ?= b) eqn:C; try reflexivity.
        apply -> Z.compare_lt_iff in C. lia.
    + destruct (Prim2SF y); try discriminate Hy.
      destruct (Prim2SF x); reflexivity.
  - destruct (Prim2SF x); try discriminate Hx. reflexivity.
Qed.

Lemma leb_rank (x y : float) :
  (x <=? y)%float
  = match rank x, rank y with
    | Some a, Some b => a <=? b
    | _, _ => false
    end.
Proof.
  rewrite leb_spec. unfold SFleb, rank.
  destruct (rankSF (Prim2SF x)) as [a|] eqn:Hx.
  - destruct (rankSF (Prim2SF y)) as [b|] eqn:Hy.
    + rewrite (SFcompare_rank _ _ a b (rank_valid x) (rank_valid y) Hx Hy).
      destruct (Z.leb_spec a b) as [L|L].
      * destruct (a ?= b) eqn:C; try reflexivity.
        apply -> Z.compare_gt_iff in C. lia.
      * assert (C : (a ?= b) = Gt) by (apply Z.compare_gt_iff; lia).
        rewrite C. reflexivity.
    + destruct (Prim2SF y); try discriminate Hy.
      destruct (Prim2SF x); reflexivity.
  - destruct (Prim2SF x); try discriminate Hx. reflexivity.
Qed.

(** NaN is the one number without a rank. *)
Lemma rank_none_iff_nan (x : float) : rank x = None <-> is_nan x = true.
Proof.
  unfold is_nan. rewrite eqb_spec. unfold SFeqb, rank.
  destruct (rankSF (Prim2SF x)) as [a|] eqn:Hx.
  - rewrite (SFcompare_rank _ _ a a (rank_valid x) (rank_valid x) Hx Hx).
    rewrite Z.compare_refl. simpl. split; discriminate.
  - destruct (Prim2SF x); try discriminate Hx. simpl. tauto.
Qed.

Lemma is_nan_rank (x : float) :
  is_nan x = match rank x with Some _ => false | None => true end.
Proof.
  destruct (rank x) as [a|] eqn:H.
  - destruct (is_nan x) eqn:N; [|reflexivity].
    apply rank_none_iff_nan in N. congruence.
  - apply rank_none_iff_nan, H.
Qed.

(** A unit for the ranks of literals: 2^-74 in value. *)
Definition unit : Z := 2 ^ 1000.

Lemma unit_pos : 0 < unit.
Proof. unfold unit. apply Z.pow_pos_nonneg; lia. Qed.

End FloatOrder.

(** ** Deciding comparisons *)

Module FloatTactics.
Import FloatOrder.

(** Replace the rank of a literal by its value, a multiple of [unit]. *)
Ltac rank_literal k :=
  let closed := eval vm_compute in (PrimFloat.eqb k k) in
  lazymatch closed with true => idtac end;
  let v := eval vm_compute in (rank k) in
  lazymatch v with
  | Some ?z =>
    let n := eval vm_compute in (z / 2 ^ 1000)%Z in
    replace (rank k) with (Some (n * unit)%Z) in *
      by (vm_compute; reflexivity)
  end.

Ltac rank_literals :=
  repeat match goal with
         | |- context [rank ?k] => rank_literal k
         | H : context [rank ?k] |- _ => rank_literal k
         end.

(** Settle a goal about float comparisons by linear arithmetic on ranks. *)
Ltac float_order :=
  unfold JS.gtb, JS.geb in *;
  rewrite ?ltb_rank, ?leb_rank, ?is_nan_rank in *;
  rank_literals;
  pose proof unit_pos;
  repeat match goal with
         | H : context [rank ?t] |- _ => destruct (rank t)
         | |- context [rank ?t] => destruct (rank t)
         end;
  try discriminate; try reflexivity; lia.

End FloatTactics.

(** ** The engine's findings *)

Module EngineExtras.
Import Engine Findings.
Local Open Scope float_scope.

(** Splitting a list by a test loses and repeats nothing. *)
Lemma filter_partition {A} (f : A -> bool) (l : list A) :
  Permutation (filter (fun x => negb (f x)) l ++ filter f l) l.
Proof.
  induction l as [|a l IH]; simpl; [constructor|].
  destruct (f a); simpl.
  - apply Permutation_sym, Permutation_cons_app, Permutation_sym, IH.
  - constructor. exact IH.
Qed.

Lemma isWarning_iff (m : ValidationMessage) :
  isWarning m = true <-> ruleId m = "LEG-05".
Proof.
  unfold isWarning, WARNING_RULE_IDS. simpl. rewrite orb_false_r.
  apply String.eqb_eq.
Qed.

(** X1.  [validate] classifies every finding exactly once: the violations
    followed by the warnings are a rearrangement of all findings, the
    warnings are the findings of rule LEG-05 and no violation bears that
    rule. *)
Theorem validate_classifies_each_finding_once (c : TableConfig) :
  Permutation (violations (validate c) ++ warnings (validate c))
    (allMessages c)
  /\ Forall (fun m => ruleId m = "LEG-05") (warnings (validate c))
  /\ Forall (fun m => ruleId m <> "LEG-05") (violations (validate c)).
Proof.
  rewrite EngineProps.validate_violations, EngineProps.validate_warnings.
  split; [apply filter_partition|]. split.
  - apply Forall_forall. intros m Hm. apply filter_In in Hm.
    apply isWarning_iff, Hm.
  - apply Forall_forall. intros m Hm. apply filter_In in Hm.
    destruct Hm as [_ Hm]. apply negb_true_iff in Hm.
    intro H. apply isWarning_iff in H. congruence.
Qed.

(** The material checker and the composite checker exclude each other. *)
Lemma composite_skips_material (c : TableConfig) :
  isComposite c = true -> MaterialRules.checkMaterialThickness c = [].
Proof.
  intro H. unfold MaterialRules.checkMaterialThickness. rewrite H.
  reflexivity.
Qed.

Lemma solid_skips_composite (c : TableConfig) :
  isComposite c = false -> CompositeRules.checkCompositeTop c = [].
Proof.
  intro H. unfold CompositeRules.checkCompositeTop. rewrite H.
  reflexivity.
Qed.

(** X2.  No result of [validate] mixes the two thickness regimes: a
    composite top gets no MAT-01 or MAT-02 finding, any other top gets no
    COMP-01, COMP-02 or COMP-03 finding. *)
Theorem material_and_composite_findings_exclusive (c : TableConfig)
    (m : ValidationMessage) :
  In m (violations (validate c) ++ warnings (validate c)) ->
  (isComposite c = true -> ~ In (ruleId m) materialIds)
  /\ (isComposite c = false -> ~ In (ruleId m) compositeIds).
Proof.
  intro Hin. apply In_validate_findings, In_allMessages in Hin.
  split; intros Hc Hid.
  - rewrite (composite_skips_material c Hc) in Hin.
    destruct Hin as [H|[H|[H|[H|[H|[H|H]]]]]];
      [ apply checkCompositeTop_ids in H | destruct H
      | apply checkSpan_ids in H | apply checkStability_ids in H
      | apply checkLegRules_ids in H | apply checkHeight_ids in H
      | apply checkEdge_ids in H ];
      simpl in H, Hid;
      repeat (destruct H as [H|H];
              [rewrite <- H in Hid;
               repeat (destruct Hid as [Hid|Hid]; [discriminate Hid|]);
               exact Hid|]);
      exact H.
  - rewrite (solid_skips_composite c Hc) in Hin.
    destruct Hin as [H|[H|[H|[H|[H|[H|H]]]]]];
      [ destruct H | apply checkMaterialThickness_ids in H
      | apply checkSpan_ids in H | apply checkStability_ids in H
      | apply checkLegRules_ids in H | apply checkHeight_ids in H
      | apply checkEdge_ids in H ];
      simpl in H, Hid;
      repeat (destruct H as [H|H];
              [rewrite <- H in Hid;
               repeat (destruct Hid as [Hid|Hid]; [discriminate Hid|]);
               exact Hid|]);
      exact H.
Qed.

Lemma material_and_composite_findings_exclusive_witness :
  (isComposite Samples.thinFaces = true -> ~ In "COMP-01" materialIds)
  /\ (isComposite Samples.thinFaces = false -> ~ In "COMP-01" compositeIds).
Proof.
  apply (material_and_composite_findings_exclusive Samples.thinFaces
           (mkMessage "COMP-01" "topFaceThicknessMm")).
  vm_compute. left. reflexivity.
Defined.

(** A case of the [switch] in [applyFix] exists for a rule identifier. *)
Definition hasFixCase (id : string) : bool :=
  existsb (fun entry => String.eqb (fst entry) id) Suggester.fixTable.

Lemma hasFixCase_find (id : string) :
  hasFixCase id = true ->
  exists entry, find (fun entry => String.eqb (fst entry) id)
                  Suggester.fixTable = Some entry
                /\ fst entry = id.
Proof.
  unfold hasFixCase. intro H. apply existsb_exists in H.
  destruct H as (e & He & Heq).
  destruct (find _ Suggester.fixTable) as [entry|] eqn:Hf.
  - exists entry. split; [reflexivity|].
    apply find_some in Hf. apply String.eqb_eq, Hf.
  - exfalso. pose proof (find_none _ _ Hf e He) as Hn. congruence.
Qed.

(** X3.  Every violation [validate] can report has its own case in the
    [switch] of [applyFix], so no violation falls through to the default
    branch; the one warning rule, LEG-05, has no case, and [applyFix]
    leaves the configuration as it is for it. *)
Theorem every_violation_has_a_fix_case (c : TableConfig) :
  (forall v, In v (violations (validate c)) ->
             hasFixCase (ruleId v) = true)
  /\ (forall w cfg, In w (warnings (validate c)) ->
                    hasFixCase (ruleId w) = false
                    /\ Suggester.applyFix cfg w = cfg).
Proof.
  split.
  - intros v Hv.
    rewrite EngineProps.validate_violations in Hv.
    apply filter_In in Hv. destruct Hv as [Hv Hid].
    apply negb_true_iff in Hid.
    assert (Hid' : ruleId v <> "LEG-05")
      by (intro E; apply isWarning_iff in E; congruence).
    clear Hid; rename Hid' into Hid.
    apply In_allMessages in Hv.
    destruct Hv as [H|[H|[H|[H|[H|[H|H]]]]]];
      [ apply checkCompositeTop_ids in H
      | apply checkMaterialThickness_ids in H
      | apply checkSpan_ids in H | apply checkStability_ids in H
      | apply checkLegRules_ids in H | apply checkHeight_ids in H
      | apply checkEdge_ids in H ];
      simpl in H;
      repeat (destruct H as [H|H];
              [first [ rewrite <- H; reflexivity
                     | exfalso; apply Hid; symmetry; exact H ]|]);
      destruct H.
  - intros w cfg Hw.
    rewrite EngineProps.validate_warnings in Hw.
    apply filter_In in Hw. destruct Hw as [_ Hw].
    apply isWarning_iff in Hw.
    unfold Suggester.applyFix, hasFixCase. rewrite Hw.
    split; reflexivity.
Qed.

(** The rule identifiers of two lists of findings do not meet. *)
Definition disjointIds (l1 l2 : list string) : bool :=
  forallb (fun a => negb (existsb (String.eqb a) l2)) l1.

Lemma disjointIds_spec (l1 l2 : list string) (a : string) :
  disjointIds l1 l2 = true -> In a l1 -> ~ In a l2.
Proof.
  unfold disjointIds. intros H H1 H2.
  rewrite forallb_forall in H. specialize (H a H1).
  apply negb_true_iff in H.
  assert (existsb (String.eqb a) l2 = true)
    by (apply existsb_exists; exists a; split;
        [exact H2 | apply String.eqb_refl]).
  congruence.
Qed.

Lemma In_map_ids (ids : list string) (l : list ValidationMessage) :
  (forall m, In m l -> In (ruleId m) ids) ->
  forall a, In a (map ruleId l) -> In a ids.
Proof.
  intros H a Ha. apply in_map_iff in Ha. destruct Ha as (m & <- & Hm).
  apply H, Hm.
Qed.

(** Two blocks of findings, each without a repeated rule and with rules
    from disjoint families. *)
Lemma NoDup_blocks (ids1 ids2 : list string)
    (l1 l2 : list ValidationMessage) :
  disjointIds ids1 ids2 = true ->
  (forall a, In a (map ruleId l1) -> In a ids1) ->
  (forall a, In a (map ruleId l2) -> In a ids2) ->
  NoDup (map ruleId l1) -> NoDup (map ruleId l2) ->
  NoDup (map ruleId (l1 ++ l2)).
Proof.
  intros Hd H1 H2 N1 N2. rewrite map_app.
  apply NoDup_app; try assumption.
  intros a Ha Hb. exact (disjointIds_spec _ _ a Hd (H1 a Ha) (H2 a Hb)).
Qed.

Ltac nodup_cases :=
  repeat match goal with
         | |- context [if ?b then _ else _] => destruct b
         | |- context [match ?x with Some _ => _ | None => _ end] =>
           destruct x
         end;
  simpl; repeat constructor; simpl; intuition discriminate.

Lemma checkCompositeTop_NoDup (c : TableConfig) :
  NoDup (map ruleId (CompositeRules.checkCompositeTop c)).
Proof.
  unfold CompositeRules.checkCompositeTop, pushIf. nodup_cases.
Qed.

Lemma checkMaterialThickness_NoDup (c : TableConfig) :
  NoDup (map ruleId (MaterialRules.checkMaterialThickness c)).
Proof.
  unfold MaterialRules.checkMaterialThickness, pushIf.
  destruct (isComposite c); [constructor|].
  destruct (topMaterial c); simpl; nodup_cases.
Qed.

Lemma checkSpan_NoDup (c : TableConfig) :
  NoDup (map ruleId (SpanRules.checkSpan c)).
Proof. unfold SpanRules.checkSpan, pushIf. nodup_cases. Qed.

Lemma checkStability_NoDup (c : TableConfig) :
  NoDup (map ruleId (StabilityRules.checkStability c)).
Proof.
  unfold StabilityRules.checkStability, pushIf.
  destruct (StabilityRules.isRadial c); simpl negb; cbv iota;
    [nodup_cases|].
  destruct (legMaterial c); simpl; nodup_cases.
Qed.

Lemma checkLegRules_NoDup (c : TableConfig) :
  NoDup (map ruleId (LegRules.checkLegRules c)).
Proof.
  unfold LegRules.checkLegRules, LegRules.checkRadial,
    LegRules.checkStandard, pushIf.
  destruct (LegProfileType_beq (legProfileType c) radial_halfcylinder);
    [nodup_cases|].
  destruct (legMaterial c); simpl; nodup_cases.
Qed.

Lemma checkEdge_NoDup (c : TableConfig) :
  NoDup (map ruleId (EdgeRules.checkEdge c)).
Proof. unfold EdgeRules.checkEdge, pushIf. nodup_cases. Qed.

(** The two bounds of HGT-01 cannot both be crossed. *)
Lemma checkHeight_NoDup (c : TableConfig) :
  NoDup (map ruleId (HeightRules.checkHeight c)).
Proof.
  unfold HeightRules.checkHeight, pushIf, HeightRules.MIN_TOTAL_HEIGHT,
    HeightRules.MAX_TOTAL_HEIGHT.
  destruct (totalHeightMm c <? 350) eqn:Hlow;
    destruct (JS.gtb (totalHeightMm c) 1100) eqn:Hhigh.
  - exfalso. FloatTactics.float_order.
  - nodup_cases.
  - nodup_cases.
  - nodup_cases.
Qed.

(** X4.  [validate] never reports a rule twice: the rule identifiers of
    all findings of one configuration are pairwise different. *)
Theorem validate_reports_each_rule_once (c : TableConfig) :
  NoDup (map ruleId (allMessages c))
  /\ NoDup (map ruleId (violations (validate c))).
Proof.
  assert (H : NoDup (map ruleId (allMessages c))).
  { unfold allMessages.
    apply (NoDup_blocks compositeIds
             (materialIds ++ spanIds ++ stabilityIds ++ legIds
              ++ heightIds ++ edgeIds)); [reflexivity | | | |].
    - apply In_map_ids, checkCompositeTop_ids.
    - apply In_map_ids. intros m Hm. rewrite !in_app_iff in *.
      destruct Hm as [H|[H|[H|[H|[H|H]]]]];
        eauto 10 using checkMaterialThickness_ids, checkSpan_ids,
          checkStability_ids, checkLegRules_ids, checkHeight_ids,
          checkEdge_ids.
    - apply checkCompositeTop_NoDup.
    - apply (NoDup_blocks materialIds
               (spanIds ++ stabilityIds ++ legIds ++ heightIds
                ++ edgeIds)); [reflexivity | | | |].
      + apply In_map_ids, checkMaterialThickness_ids.
      + apply In_map_ids. intros m Hm. rewrite !in_app_iff in *.
        destruct Hm as [H|[H|[H|[H|H]]]];
          eauto 10 using checkSpan_ids, checkStability_ids,
            checkLegRules_ids, checkHeight_ids, checkEdge_ids.
      + apply checkMaterialThickness_NoDup.
      + apply (NoDup_blocks spanIds
                 (stabilityIds ++ legIds ++ heightIds ++ edgeIds));
          [reflexivity | | | |].
        * apply In_map_ids, checkSpan_ids.
        * apply In_map_ids. intros m Hm. rewrite !in_app_iff in *.
          destruct Hm as [H|[H|[H|H]]];
            eauto 10 using checkStability_ids, checkLegRules_ids,
              checkHeight_ids, checkEdge_ids.
        * apply checkSpan_NoDup.
        * apply (NoDup_blocks stabilityIds
                   (legIds ++ heightIds ++ edgeIds));
            [reflexivity | | | |].
          -- apply In_map_ids, checkStability_ids.
          -- apply In_map_ids. intros m Hm. rewrite !in_app_iff in *.
             destruct Hm as [H|[H|H]];
               eauto 10 using checkLegRules_ids, checkHeight_ids,
                 checkEdge_ids.
          -- apply checkStability_NoDup.
          -- apply (NoDup_blocks legIds (heightIds ++ edgeIds));
               [reflexivity | | | |].
             ++ apply In_map_ids, checkLegRules_ids.
             ++ apply In_map_ids. intros m Hm. rewrite !in_app_iff in *.
                destruct Hm as [H|H];
                  eauto using checkHeight_ids, checkEdge_ids.
             ++ apply checkLegRules_NoDup.
             ++ apply (NoDup_blocks heightIds edgeIds);
                  [reflexivity | | | |].
                ** apply In_map_ids, checkHeight_ids.
                ** apply In_map_ids, checkEdge_ids.
                ** apply checkHeight_NoDup.
                ** apply checkEdge_NoDup. }
  split; [exact H|].
  rewrite EngineProps.validate_violations.
  clear -H. induction (allMessages c) as [|a l IH]; simpl; [constructor|].
  inversion H as [|? ? Hn Hl]; subst.
  destruct (negb (isWarning a)); simpl; [|apply IH, Hl].
  constructor; [|apply IH, Hl].
  intro Hin. apply Hn. apply in_map_iff in Hin.
  destruct Hin as (m & Hm & Hf). apply filter_In in Hf.
  apply in_map_iff. exists m. tauto.
Qed.

End EngineExtras.

(** ** Rules and their families *)

Module Families.
Import Engine Findings EngineExtras.

Ltac other_family Hid H :=
  exfalso;
  first [ apply (In_map_ids _ _ (checkCompositeTop_ids _)) in H
        | apply (In_map_ids _ _ (checkMaterialThickness_ids _)) in H
        | apply (In_map_ids _ _ (checkSpan_ids _)) in H
        | apply (In_map_ids _ _ (checkStability_ids _)) in H
        | apply (In_map_ids _ _ (checkLegRules_ids _)) in H
        | apply (In_map_ids _ _ (checkHeight_ids _)) in H
        | apply (In_map_ids _ _ (checkEdge_ids _)) in H ];
  refine (disjointIds_spec _ _ _ _ Hid H); reflexivity.

Ltac own_family :=
  intros Hid Hin; unfold allMessages in Hin;
  rewrite !map_app, !in_app_iff in Hin;
  destruct Hin as [H|[H|[H|[H|[H|[H|H]]]]]]; try exact H;
  other_family Hid H.

(** A rule of a family can only come from the family's checker. *)
Lemma composite_rule_source (id : string) (c : TableConfig) :
  In id compositeIds -> In id (map ruleId (allMessages c)) ->
  In id (map ruleId (CompositeRules.checkCompositeTop c)).
Proof. own_family. Qed.

Lemma material_rule_source (id : string) (c : TableConfig) :
  In id materialIds -> In id (map ruleId (allMessages c)) ->
  In id (map ruleId (MaterialRules.checkMaterialThickness c)).
Proof. own_family. Qed.

Lemma span_rule_source (id : string) (c : TableConfig) :
  In id spanIds -> In id (map ruleId (allMessages c)) ->
  In id (map ruleId (SpanRules.checkSpan c)).
Proof. own_family. Qed.

Lemma stability_rule_source (id : string) (c : TableConfig) :
  In id stabilityIds -> In id (map ruleId (allMessages c)) ->
  In id (map ruleId (StabilityRules.checkStability c)).
Proof. own_family. Qed.

Lemma leg_rule_source (id : string) (c : TableConfig) :
  In id legIds -> In id (map ruleId (allMessages c)) ->
  In id (map ruleId (LegRules.checkLegRules c)).
Proof. own_family. Qed.

Lemma height_rule_source (id : string) (c : TableConfig) :
  In id heightIds -> In id (map ruleId (allMessages c)) ->
  In id (map ruleId (HeightRules.checkHeight c)).
Proof. own_family. Qed.

Lemma edge_rule_source (id : string) (c : TableConfig) :
  In id edgeIds -> In id (map ruleId (allMessages c)) ->
  In id (map ruleId (EdgeRules.checkEdge c)).
Proof. own_family. Qed.

End Families.

(** ** The guard of each rule *)

Module RuleGuards.
Import Engine Findings.
Local Open Scope float_scope.

(** Read the guards off a membership in a checker's findings. *)
Ltac guards :=
  rewrite ?map_app, ?in_app_iff, ?In_pushIf_iff; simpl;
  intuition (try discriminate; try congruence).

Lemma MAT01_iff (c : TableConfig) :
  In "MAT-01" (map ruleId (MaterialRules.checkMaterialThickness c)) <->
  isComposite c = false
  /\ (topThicknessMm c
      <? MaterialRules.MATERIAL_MIN_THICKNESS (topMaterial c)) = true.
Proof.
  unfold MaterialRules.checkMaterialThickness.
  destruct (isComposite c); simpl flat_map; guards.
Qed.

Lemma MAT02_iff (c : TableConfig) :
  In "MAT-02" (map ruleId (MaterialRules.checkMaterialThickness c)) <->
  isComposite c = false
  /\ exists rule,
       In rule MaterialRules.MATERIAL_SPAN_UPGRADE
       /\ MaterialRules.includes (MaterialRules.up_materials rule)
            (topMaterial c) = true
       /\ JS.gtb (topLengthMm c) (MaterialRules.spanThresholdMm rule) = true
       /\ (topThicknessMm c <? MaterialRules.up_minThicknessMm rule) = true.
Proof.
  unfold MaterialRules.checkMaterialThickness,
    MaterialRules.MATERIAL_SPAN_UPGRADE.
  destruct (isComposite c); simpl flat_map.
  - simpl. split; [tauto | intros [H _]; discriminate H].
  - rewrite ?map_app, ?in_app_iff, ?In_pushIf_iff, !andb_true_iff.
    simpl. split.
    + intros [[_ H]|[[[[H1 H2] H3] _]|[[[[H1 H2] H3] _]|[]]]];
        try discriminate H; (split; [reflexivity|]).
      * exists (MaterialRules.mkUpgrade [sintered_stone] 1200 20).
        simpl. tauto.
      * exists (MaterialRules.mkUpgrade [marble; granite] 1400 30).
        simpl. tauto.
    + intros [_ (rule & [<-|[<-|[]]] & H1 & H2 & H3)]; simpl in *; tauto.
Qed.

Lemma STAB02_iff (c : TableConfig) :
  In "STAB-02" (map ruleId (StabilityRules.checkStability c)) <->
  StabilityRules.isRadial c = false
  /\ ((legCount c =? 1)%Z
      || LegProfileType_beq (legProfileType c) pedestal) = true
  /\ (legProfileSizeMm c
      <? JS.Math_ceil (StabilityRules.PEDESTAL_BASE_RATIO
                       * totalHeightMm c)) = true.
Proof.
  unfold StabilityRules.checkStability.
  destruct (StabilityRules.isRadial c); simpl negb; cbv iota;
    rewrite ?andb_false_l, ?andb_true_l.
  - guards.
  - destruct ((legCount c =? 1)%Z
              || LegProfileType_beq (legProfileType c) pedestal);
      destruct (StabilityRules.has StabilityRules.METAL_MATERIALS _);
      destruct (StabilityRules.has StabilityRules.WOOD_MATERIALS _);
      guards.
Qed.

Lemma STAB03_iff (c : TableConfig) :
  In "STAB-03" (map ruleId (StabilityRules.checkStability c)) <->
  StabilityRules.isRadial c = false
  /\ ((StabilityRules.has StabilityRules.METAL_MATERIALS (legMaterial c)
       = true
       /\ StabilityRules.footBaseNeeded StabilityRules.FOOT_BASE_RULES_metal
            c = true)
      \/ (StabilityRules.has StabilityRules.WOOD_MATERIALS (legMaterial c)
          = true
          /\ StabilityRules.footBaseNeeded
               StabilityRules.FOOT_BASE_RULES_wood c = true)).
Proof.
  unfold StabilityRules.checkStability.
  destruct (StabilityRules.isRadial c); simpl negb; cbv iota;
    rewrite ?andb_false_l, ?andb_true_l.
  - guards.
  - destruct ((legCount c =? 1)%Z
              || LegProfileType_beq (legProfileType c) pedestal);
      destruct (StabilityRules.has StabilityRules.METAL_MATERIALS _);
      destruct (StabilityRules.has StabilityRules.WOOD_MATERIALS _);
      guards.
Qed.

Lemma radial_rule_source (id : string) (c : TableConfig) :
  In id (map ruleId (LegRules.checkLegRules c)) ->
  In id radialIds ->
  legProfileType c = radial_halfcylinder
  /\ In id (map ruleId (LegRules.checkRadial c)).
Proof.
  unfold LegRules.checkLegRules.
  destruct (legProfileType c) eqn:Hp; simpl LegProfileType_beq; cbv iota;
    intros H Hid; try (split; [reflexivity | exact H]);
    exfalso; unfold LegRules.checkStandard in H;
    rewrite ?map_app, ?in_app_iff in H;
    repeat match type of H with
           | _ \/ _ => destruct H as [H|H]
           end;
    repeat match type of H with
           | In _ (map _ (if ?b then _ else _)) => destruct b
           | In _ (map _ (match ?x with Some _ => _ | None => _ end)) =>
             destruct x
           end;
    try (apply In_pushIf_iff in H; destruct H as [_ H]); simpl in H, Hid;
    try contradiction; subst id; intuition discriminate.
Qed.

Lemma RADIAL01_iff (c : TableConfig) :
  In "RADIAL-01" (map ruleId (LegRules.checkRadial c)) <->
  exists spread,
    legRadialSpreadMm c = Some spread
    /\ (spread <? JS.Math_ceil (LegRules.RADIAL_SPREAD_RATIO
                                * totalHeightMm c)) = true.
Proof.
  unfold LegRules.checkRadial.
  destruct (legRadialSpreadMm c) as [s|];
    rewrite ?map_app, ?in_app_iff, ?In_pushIf_iff; simpl; split.
  - intros [[[H _]|[[_ H]|[_ H]]]|[]]; try discriminate H.
    exists s. tauto.
  - intros (s' & Hs & H). injection Hs as <-. tauto.
  - intros [[[]|[[_ H]|[_ H]]]|[]]; discriminate H.
  - intros (s' & Hs & _). discriminate Hs.
Qed.

Lemma RADIAL02_iff (c : TableConfig) :
  In "RADIAL-02" (map ruleId (LegRules.checkRadial c)) <->
  match legRadialCount c with
  | Some n => (n <? LegRules.RADIAL_MIN_COUNT)%Z
  | None => false
  end = true.
Proof.
  unfold LegRules.checkRadial.
  destruct (legRadialSpreadMm c) as [s|]; guards.
Qed.

Lemma RADIAL03_iff (c : TableConfig) :
  In "RADIAL-03" (map ruleId (LegRules.checkRadial c)) <->
  (legProfileSizeMm c <? LegRules.RADIAL_MIN_DIAMETER_MM) = true.
Proof.
  unfold LegRules.checkRadial.
  destruct (legRadialSpreadMm c) as [s|]; guards.
Qed.

Lemma standard_rule_source (id : string) (c : TableConfig) :
  In id (map ruleId (LegRules.checkLegRules c)) ->
  In id ["LEG-01"; "LEG-02"; "LEG-03"; "LEG-04"; "LEG-05"] ->
  LegProfileType_beq (legProfileType c) radial_halfcylinder = false
  /\ In id (map ruleId (LegRules.checkStandard c)).
Proof.
  unfold LegRules.checkLegRules.
  destruct (LegProfileType_beq (legProfileType c) radial_halfcylinder).
  - intros H Hid. exfalso.
    apply in_map_iff in H. destruct H as (m & <- & Hm).
    apply checkRadial_ids in Hm. simpl in Hm, Hid.
    repeat (destruct Hm as [Hm|Hm];
            [rewrite <- Hm in Hid;
             repeat (destruct Hid as [Hid|Hid]; [discriminate Hid|]);
             exact Hid|]).
    exact Hm.
  - tauto.
Qed.

(** LEG-01: the minimum of the metal table, which is the table of the
    LEG-01 fix. *)
Lemma LEG01_iff (c : TableConfig) :
  In "LEG-01" (map ruleId (LegRules.checkStandard c)) <->
  LegRules.has LegRules.METAL_MATERIALS (legMaterial c) = true
  /\ match Suggester.metalMin (legProfileType c) with
     | Some k => legProfileSizeMm c <? k
     | None => false
     end = true.
Proof.
  unfold LegRules.checkStandard.
  destruct (legMaterial c); destruct (legProfileType c); simpl;
    rewrite ?map_app, ?in_app_iff, ?In_pushIf_iff; simpl;
    intuition (try discriminate; try congruence).
Qed.

Lemma LEG02_iff (c : TableConfig) :
  In "LEG-02" (map ruleId (LegRules.checkStandard c)) <->
  LegRules.has LegRules.WOOD_MATERIALS (legMaterial c) = true
  /\ (legProfileSizeMm c
      <? (if JS.geb (legHeightMm c) LegRules.WOOD_TALL_THRESHOLD
          then LegRules.WOOD_MIN_PROFILE_TALL
          else LegRules.WOOD_MIN_PROFILE_SHORT)) = true.
Proof.
  unfold LegRules.checkStandard.
  destruct (legMaterial c); destruct (legProfileType c); simpl;
    rewrite ?map_app, ?in_app_iff, ?In_pushIf_iff; simpl;
    intuition (try discriminate; try congruence).
Qed.

Lemma LEG04_iff (c : TableConfig) :
  In "LEG-04" (map ruleId (LegRules.checkStandard c)) <->
  ((legCount c =? 1)%Z
   || LegProfileType_beq (legProfileType c) pedestal)
  && negb (LegRules.hasShape LegRules.PEDESTAL_VALID_SHAPES
             (topShapeType c)) = true.
Proof.
  unfold LegRules.checkStandard.
  destruct (legMaterial c); destruct (legProfileType c); simpl;
    rewrite ?map_app, ?in_app_iff, ?In_pushIf_iff; simpl;
    intuition (try discriminate; try congruence).
Qed.

Lemma HGT01_iff (c : TableConfig) :
  In "HGT-01" (map ruleId (HeightRules.checkHeight c)) <->
  (totalHeightMm c <? HeightRules.MIN_TOTAL_HEIGHT) = true
  \/ JS.gtb (totalHeightMm c) HeightRules.MAX_TOTAL_HEIGHT = true.
Proof. unfold HeightRules.checkHeight. guards. Qed.

Lemma HGT03_iff (c : TableConfig) :
  In "HGT-03" (map ruleId (HeightRules.checkHeight c)) <->
  JS.gtb (JS.Math_abs (totalHeightMm c
                       - (legHeightMm c + topThicknessMm c)))
    HeightRules.HEIGHT_TOLERANCE = true.
Proof. unfold HeightRules.checkHeight. guards. Qed.

Lemma COMP01_iff (c : TableConfig) :
  In "COMP-01" (map ruleId (CompositeRules.checkCompositeTop c)) <->
  isComposite c = true
  /\ match topFaceThicknessMm c,
           CompositeRules.COMPOSITE_FACE_MIN (topMaterial c) with
     | Some face, Some k => face <? k
     | _, _ => false
     end = true.
Proof.
  unfold CompositeRules.checkCompositeTop.
  destruct (isComposite c); simpl negb; cbv iota.
  - destruct (topFaceThicknessMm c) as [face|];
      [|simpl; intuition discriminate].
    destruct (CompositeRules.COMPOSITE_FACE_MIN (topMaterial c)); guards.
  - simpl. intuition discriminate.
Qed.

Lemma EDGE_iff (id : string) (c : TableConfig) :
  In id (map ruleId (EdgeRules.checkEdge c)) <->
  exists k,
    EdgeRules.EDGE_MIN_THICKNESS (topEdgeFinish c) = Some k
    /\ (EdgeRules.effectiveThickness c <? k) = true
    /\ id = (if TopEdgeFinish_beq (topEdgeFinish c) mitered
             then "EDGE-01" else "EDGE-02").
Proof.
  unfold EdgeRules.checkEdge.
  destruct (EdgeRules.EDGE_MIN_THICKNESS (topEdgeFinish c)) as [k|].
  - rewrite In_pushIf_iff. simpl. split.
    + intros [H ->]. exists k. tauto.
    + intros (k' & Hk & H & ->). injection Hk as <-. tauto.
  - simpl. split; [tauto | intros (k & Hk & _); discriminate Hk].
Qed.

End RuleGuards.

(** ** What a fix does to its own rule *)

Module FixProps.
Import Engine Findings Suggester Families RuleGuards FloatTactics.
Local Open Scope float_scope.

(** The case [applyFix] takes for a violation of a given rule. *)
Lemma applyFix_at (id : string) (f : TableConfig -> TableConfig)
    (c : TableConfig) (v : ValidationMessage) :
  ruleId v = id ->
  find (fun entry => String.eqb (fst entry) id) fixTable = Some (id, f) ->
  applyFix c v = f c.
Proof. intros <- H. unfold applyFix. rewrite H. reflexivity. Qed.

(** Reduce the fields of an updated configuration. *)
Ltac fields :=
  cbn [topMaterial topThicknessMm topShapeType topLengthMm topWidthMm
       topEdgeFinish topConstruction topFaceThicknessMm legCount
       legMaterial legProfileType legProfileSizeMm legProfileWidthMm
       legHeightMm hasFootBase legRadialCount legRadialSpreadMm
       totalHeightMm
       set_topThicknessMm set_topLengthMm set_topWidthMm set_topEdgeFinish
       set_topFaceThicknessMm set_legCount set_legProfileType
       set_legProfileSizeMm set_legHeightMm set_hasFootBase
       set_legRadialCount set_legRadialSpreadMm set_totalHeightMm] in *.

(** Decide the guards of a fix, innermost first, keeping each decision. *)
Ltac fix_guards :=
  fields;
  repeat (match goal with
          | |- context [if ?b then _ else _] =>
            lazymatch b with
            | context [if _ then _ else _] => fail
            | _ => let E := fresh "E" in destruct b eqn:E
            end
          | H : context [if ?b then _ else _] |- _ =>
            lazymatch b with
            | context [if _ then _ else _] => fail
            | _ => let E := fresh "E" in destruct b eqn:E
            end
          end; fields).

(** [Math.max] is below neither of its arguments. *)
Lemma Math_max_not_below (a b : JS.number) :
  (JS.Math_max a b <? b) = false /\ (JS.Math_max a b <? a) = false.
Proof.
  unfold JS.Math_max.
  destruct (is_nan a) eqn:Na; [split; float_order|].
  destruct (is_nan b) eqn:Nb; [split; float_order|].
  destruct (a <? b) eqn:L1; [split; float_order|].
  destruct (b <? a) eqn:L2; [split; float_order|].
  destruct (get_sign a); split; float_order.
Qed.

(** *** Material *)

Lemma fix_MAT_01_clears (c : TableConfig) :
  ~ In "MAT-01"
      (map ruleId (MaterialRules.checkMaterialThickness (fix_MAT_01 c))).
Proof.
  intro H. apply MAT01_iff in H. destruct H as [_ H].
  unfold fix_MAT_01, bump, matMin, orDefault in H.
  destruct (topMaterial c) eqn:Hm; fix_guards; simpl in H;
    rewrite ?Hm in H; simpl in H; congruence.
Qed.

Lemma fix_MAT_02_clears (c : TableConfig) :
  ~ In "MAT-02"
      (map ruleId (MaterialRules.checkMaterialThickness (fix_MAT_02 c))).
Proof.
  intro H. apply MAT02_iff in H.
  destruct H as [_ (rule & Hr & Hinc & Hlen & Hthin)].
  unfold fix_MAT_02, bump, spanBasedMinThickness in *.
  destruct Hr as [<-|[<-|[]]]; simpl in Hinc, Hlen, Hthin;
    destruct (topMaterial c) eqn:Hm; fix_guards; simpl in *;
    rewrite ?Hm in *; simpl in *; try discriminate; try congruence;
    exfalso; float_order.
Qed.

(** *** Span *)

Lemma fix_SPAN_01_clears (c : TableConfig) :
  ~ In "SPAN-01" (map ruleId (SpanRules.checkSpan (fix_SPAN_01 c))).
Proof.
  intro H. apply SpanProps.SPAN01_iff in H.
  destruct H as (_ & _ & r & Hr & Hgt).
  rewrite SpanProps.applicableRule_unfold in Hr.
  unfold fix_SPAN_01, minThicknessForSpan, maxSpanForThickness,
    SpanRules.compositeMultiplier, JS.geb, JS.gtb in *.
  destruct (topMaterial c) eqn:Hm; fix_guards; simpl in Hr, Hgt;
    rewrite ?Hm in Hr; simpl in Hr; unfold JS.geb in Hr;
    repeat match type of Hr with
           | context [?k <=? JS.Math_max ?a ?b] =>
             let E := fresh "M" in
             destruct (k <=? JS.Math_max a b) eqn:E
           | context [?k <=? topThicknessMm c] =>
             let E := fresh "T" in
             destruct (k <=? topThicknessMm c) eqn:E
           end;
    try discriminate Hr;
    try (injection Hr as <-; simpl in Hgt;
         unfold isComposite in Hgt; simpl in Hgt;
         destruct (topConstruction c) as [[|]|]; simpl in Hgt;
         repeat match goal with
                | M : (_ <=? JS.Math_max ?a ?b) = _ |- _ =>
                  lazymatch goal with
                  | _ : (JS.Math_max a b <? b) = false |- _ => fail
                  | _ => pose proof (Math_max_not_below a b) as [? ?]
                  end
                end;
         float_order).
Qed.

End FixProps.

Module FixProps2.
Import Engine Findings Suggester Families RuleGuards FloatTactics FixProps.
Local Open Scope float_scope.

(** *** Stability *)

Lemma fix_STAB_02_clears (c : TableConfig) :
  ~ In "STAB-02" (map ruleId (StabilityRules.checkStability (fix_STAB_02 c))).
Proof.
  intro H. apply STAB02_iff in H. destruct H as (_ & _ & H).
  unfold fix_STAB_02, bump, StabilityRules.PEDESTAL_BASE_RATIO in H.
  fix_guards; simpl in H; float_order.
Qed.

Lemma fix_STAB_03_clears (c : TableConfig) :
  ~ In "STAB-03" (map ruleId (StabilityRules.checkStability (fix_STAB_03 c))).
Proof.
  intro H. apply STAB03_iff in H.
  unfold StabilityRules.footBaseNeeded, fix_STAB_03 in H. simpl in H.
  rewrite !andb_false_r in H. intuition discriminate.
Qed.

(** *** Standard legs *)

Lemma fix_LEG_01_clears (c : TableConfig) :
  ~ In "LEG-01" (map ruleId (LegRules.checkStandard (fix_LEG_01 c))).
Proof.
  intro H. apply LEG01_iff in H. destruct H as [_ H].
  unfold fix_LEG_01, bump, metalMin, orDefault in H.
  destruct (legProfileType c) eqn:Hp; fix_guards; simpl in H;
    rewrite ?Hp in H; simpl in H; congruence.
Qed.

Lemma fix_LEG_02_clears (c : TableConfig) :
  ~ In "LEG-02" (map ruleId (LegRules.checkStandard (fix_LEG_02 c))).
Proof.
  intro H. apply LEG02_iff in H. destruct H as [_ H].
  unfold fix_LEG_02, bump, LegRules.WOOD_TALL_THRESHOLD,
    LegRules.WOOD_MIN_PROFILE_TALL, LegRules.WOOD_MIN_PROFILE_SHORT in H.
  fix_guards; simpl in H;
    repeat match goal with
           | E : ?b = _, H : context [?b] |- _ => rewrite E in H
           end;
    simpl in H; congruence.
Qed.

Lemma fix_LEG_04_clears (c : TableConfig) :
  ~ In "LEG-04" (map ruleId (LegRules.checkStandard (fix_LEG_04 c))).
Proof.
  intro H. apply LEG04_iff in H. unfold fix_LEG_04 in H.
  destruct (legProfileType c) eqn:Hp;
    do 3 (simpl in H; rewrite ?Hp in H); discriminate H.
Qed.

(** *** Radial bases *)

Lemma fix_RADIAL_01_clears (c : TableConfig) :
  ~ In "RADIAL-01" (map ruleId (LegRules.checkRadial (fix_RADIAL_01 c))).
Proof.
  intro H. apply RADIAL01_iff in H. destruct H as (spread & Hs & H).
  unfold fix_RADIAL_01, orDefault, LegRules.RADIAL_SPREAD_RATIO in *.
  destruct (legRadialSpreadMm c) as [s|] eqn:Hsp; fix_guards;
    simpl in Hs, H; rewrite ?Hsp in Hs; try discriminate Hs;
    injection Hs as <-; float_order.
Qed.

Lemma fix_RADIAL_02_clears (c : TableConfig) :
  ~ In "RADIAL-02" (map ruleId (LegRules.checkRadial (fix_RADIAL_02 c))).
Proof. intro H. apply RADIAL02_iff in H. discriminate H. Qed.

Lemma fix_RADIAL_03_clears (c : TableConfig) :
  ~ In "RADIAL-03" (map ruleId (LegRules.checkRadial (fix_RADIAL_03 c))).
Proof.
  intro H. apply RADIAL03_iff in H.
  unfold fix_RADIAL_03, bump, LegRules.RADIAL_MIN_DIAMETER_MM in H.
  fix_guards; simpl in H; congruence.
Qed.

(** *** Composite faces *)

Lemma fix_COMP_01_clears (c : TableConfig) :
  ~ In "COMP-01"
      (map ruleId (CompositeRules.checkCompositeTop (fix_COMP_01 c))).
Proof.
  intro H. apply COMP01_iff in H. destruct H as [_ H].
  unfold fix_COMP_01, faceMin, orDefault,
    CompositeRules.COMPOSITE_FACE_MIN in H.
  destruct (topMaterial c) eqn:Hm;
    destruct (topFaceThicknessMm c) as [face|] eqn:Hf;
    fix_guards; simpl in H; rewrite ?Hm, ?Hf in H; simpl in H;
    congruence.
Qed.

(** *** Height *)

Lemma fix_HGT_01_clears (c : TableConfig) :
  ~ In "HGT-01" (map ruleId (HeightRules.checkHeight (fix_HGT_01 c))).
Proof.
  intro H. apply HGT01_iff in H.
  unfold fix_HGT_01, HeightRules.MIN_TOTAL_HEIGHT,
    HeightRules.MAX_TOTAL_HEIGHT, JS.gtb in H.
  fix_guards; simpl in H; destruct H as [H|H]; float_order.
Qed.

(** A number minus itself is zero, or NaN when the number is not finite. *)
Lemma sub_self (x : float) :
  Prim2SF (x - x) = S754_zero false \/ Prim2SF (x - x) = S754_nan.
Proof.
  rewrite sub_spec. unfold SF64sub, SFsub.
  destruct (Prim2SF x) as [s|s| |s m e].
  - left. destruct s; reflexivity.
  - right. destruct s; reflexivity.
  - right. reflexivity.
  - left. rewrite Z.sub_diag. reflexivity.
Qed.

Lemma abs_sub_self_within (x tol : float) :
  (0 <=? tol) = true -> JS.gtb (JS.Math_abs (x - x)) tol = false.
Proof.
  intro Htol. unfold JS.gtb, JS.Math_abs.
  rewrite FloatOrder.ltb_rank. rewrite FloatOrder.leb_rank in Htol.
  unfold FloatOrder.rank in *. rewrite abs_spec.
  destruct (sub_self x) as [-> | ->]; simpl SFabs; simpl FloatOrder.rankSF.
  - change (Prim2SF 0) with (S754_zero false) in Htol.
    simpl FloatOrder.rankSF in Htol.
    destruct (FloatOrder.rankSF (Prim2SF tol)); [|reflexivity].
    apply Z.leb_le in Htol. apply Z.ltb_ge. exact Htol.
  - destruct (FloatOrder.rankSF (Prim2SF tol)); reflexivity.
Qed.

Lemma fix_HGT_03_clears (c : TableConfig) :
  ~ In "HGT-03" (map ruleId (HeightRules.checkHeight (fix_HGT_03 c))).
Proof.
  intro H. apply HGT03_iff in H. unfold fix_HGT_03 in H. fields.
  rewrite abs_sub_self_within in H by reflexivity. discriminate H.
Qed.

(** The last assignment of [generateSuggestion] has the same effect. *)
Lemma generateSuggestion_no_HGT03 (c : TableConfig)
    (vs : list ValidationMessage) :
  ~ In "HGT-03"
      (map ruleId (HeightRules.checkHeight (generateSuggestion c vs))).
Proof.
  intro H. apply HGT03_iff in H. unfold generateSuggestion in H. fields.
  rewrite abs_sub_self_within in H by reflexivity. discriminate H.
Qed.

(** *** Edges *)

(** On a top whose edge is machined into the full thickness. *)
Definition edgeOnFullThickness (c : TableConfig) : bool :=
  match isComposite c, topFaceThicknessMm c with
  | true, Some _ => false
  | _, _ => true
  end.

Lemma fix_EDGE_01_clears (c : TableConfig) :
  edgeOnFullThickness c = true ->
  ~ In "EDGE-01" (map ruleId (EdgeRules.checkEdge (fix_EDGE_01 c))).
Proof.
  intros Hfull H. apply EDGE_iff in H. destruct H as (k & Hk & H & Hid).
  unfold fix_EDGE_01, bump, EdgeRules.effectiveThickness,
    edgeOnFullThickness, isComposite in *.
  fix_guards; destruct (topEdgeFinish c) eqn:He; simpl in *;
    try discriminate; injection Hk as <-;
    destruct (topConstruction c) as [[|]|]; simpl in *; congruence.
Qed.

Lemma fix_EDGE_02_clears (c : TableConfig) :
  edgeOnFullThickness c = true ->
  ~ In "EDGE-02" (map ruleId (EdgeRules.checkEdge (fix_EDGE_02 c))).
Proof.
  intros Hfull H. apply EDGE_iff in H. destruct H as (k & Hk & H & Hid).
  unfold fix_EDGE_02, EdgeRules.effectiveThickness,
    edgeOnFullThickness, isComposite in *.
  fix_guards; destruct (topEdgeFinish c) eqn:He; simpl in *;
    try discriminate; injection Hk as <-;
    destruct (topConstruction c) as [[|]|]; simpl in *; congruence.
Qed.

End FixProps2.

(** ** Repairs, rule by rule *)

Module RepairProps.
Import Engine Findings Suggester Families RuleGuards FixProps FixProps2
  Cases.
Local Open Scope float_scope.

Ltac by_case Hin lemma :=
  match goal with
  | E : ?id = ruleId ?v |- _ =>
    rewrite <- E in Hin;
    rewrite (applyFix_at id _ _ v (eq_sym E) eq_refl) in Hin;
    exact (lemma _ Hin)
  end.

(** X5.  Applying the MAT-01 or the MAT-02 fix to any configuration gives
    a configuration for which the engine no longer reports that rule. *)
Theorem material_fix_clears_its_rule (c : TableConfig)
    (v : ValidationMessage) :
  In (ruleId v) ["MAT-01"; "MAT-02"] ->
  ~ In (ruleId v) (map ruleId (allMessages (applyFix c v))).
Proof.
  intros Hid Hin. apply material_rule_source in Hin; [|exact Hid].
  destruct Hid as [E|[E|[]]].
  - by_case Hin fix_MAT_01_clears.
  - by_case Hin fix_MAT_02_clears.
Qed.

Lemma material_fix_clears_its_rule_witness :
  ~ In "MAT-01"
      (map ruleId
         (allMessages (applyFix thinTop
                         (mkMessage "MAT-01" "topThicknessMm")))).
Proof.
  apply (material_fix_clears_its_rule thinTop
           (mkMessage "MAT-01" "topThicknessMm")).
  simpl. tauto.
Defined.

(** X6.  Applying the SPAN-01 fix, which raises the thickness to the tier
    the length needs or else shortens the top to what its thickness
    carries, gives a configuration without a SPAN-01 finding, for solid and
    composite tops alike. *)
Theorem span_fix_clears_its_rule (c : TableConfig) (v : ValidationMessage) :
  ruleId v = "SPAN-01" ->
  ~ In "SPAN-01" (map ruleId (allMessages (applyFix c v))).
Proof.
  intros E Hin. apply span_rule_source in Hin; [|simpl; tauto].
  rewrite (applyFix_at "SPAN-01" _ _ v E eq_refl) in Hin.
  exact (fix_SPAN_01_clears _ Hin).
Qed.

Lemma span_fix_clears_its_rule_witness :
  ~ In "SPAN-01"
      (map ruleId
         (allMessages (applyFix longThinTop
                         (mkMessage "SPAN-01" "topLengthMm")))).
Proof.
  apply (span_fix_clears_its_rule longThinTop
           (mkMessage "SPAN-01" "topLengthMm")).
  reflexivity.
Defined.

(** X7.  Applying the STAB-02 fix (a wider pedestal base) or the STAB-03
    fix (a foot base) gives a configuration for which the engine no longer
    reports that rule. *)
Theorem stability_fix_clears_its_rule (c : TableConfig)
    (v : ValidationMessage) :
  In (ruleId v) ["STAB-02"; "STAB-03"] ->
  ~ In (ruleId v) (map ruleId (allMessages (applyFix c v))).
Proof.
  intros Hid Hin.
  apply stability_rule_source in Hin; [|simpl in *; tauto].
  destruct Hid as [E|[E|[]]].
  - by_case Hin fix_STAB_02_clears.
  - by_case Hin fix_STAB_03_clears.
Qed.

Lemma stability_fix_clears_its_rule_witness :
  ~ In "STAB-02"
      (map ruleId
         (allMessages (applyFix slimPedestal
                         (mkMessage "STAB-02" "legProfileSizeMm")))).
Proof.
  apply (stability_fix_clears_its_rule slimPedestal
           (mkMessage "STAB-02" "legProfileSizeMm")).
  simpl. tauto.
Defined.

(** X8.  Applying the LEG-01, LEG-02 or LEG-04 fix gives a configuration
    for which the engine no longer reports that rule. *)
Theorem leg_fix_clears_its_rule (c : TableConfig) (v : ValidationMessage) :
  In (ruleId v) ["LEG-01"; "LEG-02"; "LEG-04"] ->
  ~ In (ruleId v) (map ruleId (allMessages (applyFix c v))).
Proof.
  intros Hid Hin.
  apply leg_rule_source in Hin; [|simpl in *; tauto].
  apply standard_rule_source in Hin; [|simpl in *; tauto].
  destruct Hin as [_ Hin].
  destruct Hid as [E|[E|[E|[]]]].
  - by_case Hin fix_LEG_01_clears.
  - by_case Hin fix_LEG_02_clears.
  - by_case Hin fix_LEG_04_clears.
Qed.

Lemma leg_fix_clears_its_rule_witness :
  ~ In "LEG-02"
      (map ruleId
         (allMessages (applyFix slenderWood
                         (mkMessage "LEG-02" "legProfileSizeMm")))).
Proof.
  apply (leg_fix_clears_its_rule slenderWood
           (mkMessage "LEG-02" "legProfileSizeMm")).
  simpl. tauto.
Defined.

(** X9.  Applying the RADIAL-01, RADIAL-02 or RADIAL-03 fix gives a
    configuration for which the engine no longer reports that rule. *)
Theorem radial_fix_clears_its_rule (c : TableConfig)
    (v : ValidationMessage) :
  In (ruleId v) ["RADIAL-01"; "RADIAL-02"; "RADIAL-03"] ->
  ~ In (ruleId v) (map ruleId (allMessages (applyFix c v))).
Proof.
  intros Hid Hin.
  apply leg_rule_source in Hin; [|simpl in *; tauto].
  apply radial_rule_source in Hin; [|exact Hid].
  destruct Hin as [_ Hin].
  destruct Hid as [E|[E|[E|[]]]].
  - by_case Hin fix_RADIAL_01_clears.
  - by_case Hin fix_RADIAL_02_clears.
  - by_case Hin fix_RADIAL_03_clears.
Qed.

Lemma radial_fix_clears_its_rule_witness :
  ~ In "RADIAL-01"
      (map ruleId
         (allMessages (applyFix Samples.radialNarrow
                         (mkMessage "RADIAL-01" "legRadialSpreadMm")))).
Proof.
  apply (radial_fix_clears_its_rule Samples.radialNarrow
           (mkMessage "RADIAL-01" "legRadialSpreadMm")).
  simpl. tauto.
Defined.

(** X10.  Applying the HGT-01 fix (clamping the total height) or the
    HGT-03 fix (total height set to leg height plus thickness) gives a
    configuration for which the engine no longer reports that rule. *)
Theorem height_fix_clears_its_rule (c : TableConfig)
    (v : ValidationMessage) :
  In (ruleId v) ["HGT-01"; "HGT-03"] ->
  ~ In (ruleId v) (map ruleId (allMessages (applyFix c v))).
Proof.
  intros Hid Hin. apply height_rule_source in Hin; [|exact Hid].
  destruct Hid as [E|[E|[]]].
  - by_case Hin fix_HGT_01_clears.
  - by_case Hin fix_HGT_03_clears.
Qed.

Lemma height_fix_clears_its_rule_witness :
  ~ In "HGT-03"
      (map ruleId
         (allMessages (applyFix heightMismatch
                         (mkMessage "HGT-03" "totalHeightMm")))).
Proof.
  apply (height_fix_clears_its_rule heightMismatch
           (mkMessage "HGT-03" "totalHeightMm")).
  simpl. tauto.
Defined.

(** X11.  Applying the COMP-01 fix (faces raised to the minimum of the
    material) gives a configuration without a COMP-01 finding. *)
Theorem face_fix_clears_its_rule (c : TableConfig) (v : ValidationMessage) :
  ruleId v = "COMP-01" ->
  ~ In "COMP-01" (map ruleId (allMessages (applyFix c v))).
Proof.
  intros E Hin. apply composite_rule_source in Hin; [|simpl; tauto].
  rewrite (applyFix_at "COMP-01" _ _ v E eq_refl) in Hin.
  exact (fix_COMP_01_clears _ Hin).
Qed.

Lemma face_fix_clears_its_rule_witness :
  ~ In "COMP-01"
      (map ruleId
         (allMessages (applyFix Samples.thinFaces
                         (mkMessage "COMP-01" "topFaceThicknessMm")))).
Proof.
  apply (face_fix_clears_its_rule Samples.thinFaces
           (mkMessage "COMP-01" "topFaceThicknessMm")).
  reflexivity.
Defined.

(** X12.  On a top whose edge is machined into the full thickness (a solid
    top, or a composite one without a face thickness), applying the
    EDGE-01 or the EDGE-02 fix gives a configuration for which the engine
    no longer reports that rule. *)
Theorem edge_fix_clears_its_rule (c : TableConfig) (v : ValidationMessage) :
  edgeOnFullThickness c = true ->
  In (ruleId v) ["EDGE-01"; "EDGE-02"] ->
  ~ In (ruleId v) (map ruleId (allMessages (applyFix c v))).
Proof.
  intros Hfull Hid Hin. apply edge_rule_source in Hin; [|exact Hid].
  destruct Hid as [E|[E|[]]].
  - rewrite <- E in Hin.
    rewrite (applyFix_at "EDGE-01" _ _ v (eq_sym E) eq_refl) in Hin.
    exact (fix_EDGE_01_clears _ Hfull Hin).
  - rewrite <- E in Hin.
    rewrite (applyFix_at "EDGE-02" _ _ v (eq_sym E) eq_refl) in Hin.
    exact (fix_EDGE_02_clears _ Hfull Hin).
Qed.

Lemma edge_fix_clears_its_rule_witness :
  ~ In "EDGE-01"
      (map ruleId
         (allMessages (applyFix miteredThin
                         (mkMessage "EDGE-01" "topEdgeFinish")))).
Proof.
  apply (edge_fix_clears_its_rule miteredThin
           (mkMessage "EDGE-01" "topEdgeFinish")).
  - reflexivity.
  - simpl. tauto.
Defined.

(** X13.  A suggested configuration never fails the height-consistency
    rule: whatever the original and its violations, the engine reports no
    HGT-03 for the configuration the repair returns, so re-validating a
    suggestion never shows HGT-03. *)
Theorem suggestion_passes_height_consistency (c : TableConfig)
    (vs : list ValidationMessage) :
  ~ In "HGT-03" (map ruleId (allMessages (generateSuggestion c vs)))
  /\ (forall s, suggestedConfig (validate c) = Some s ->
                ~ In "HGT-03" (map ruleId (violations (validate s)))).
Proof.
  assert (Hgen : forall c0 vs0,
             ~ In "HGT-03"
                 (map ruleId (allMessages (generateSuggestion c0 vs0)))).
  { intros c0 vs0 Hin. apply height_rule_source in Hin; [|simpl; tauto].
    exact (generateSuggestion_no_HGT03 _ _ Hin). }
  split; [apply Hgen|].
  intros s Hs Hin. rewrite EngineProps.validate_suggestedConfig in Hs.
  destruct (negb (isValid (validate c))); [|discriminate Hs].
  injection Hs as <-. apply (Hgen c (violations (validate c))).
  rewrite EngineProps.validate_violations in Hin.
  apply in_map_iff in Hin. destruct Hin as (m & Hid & Hm).
  apply filter_In in Hm. apply in_map_iff. exists m. tauto.
Qed.

(** The suggestion for the height mismatch of TC-06. *)
Example heightMismatch_suggestion :
  option_map (fun s => (totalHeightMm s, isValid (validate s)))
    (suggestedConfig (validate heightMismatch))
  = Some (720, true).
Proof. vm_compute. reflexivity. Qed.

(** X14.  On a radial base with a spread, the STAB-01 fix has no effect on
    the stability checker: it widens the top, and the footprint of a radial
    base is twice its spread. *)
Theorem stability_fix_ignores_radial_footprint (c : TableConfig)
    (v : ValidationMessage) (spread : JS.number) :
  legProfileType c = radial_halfcylinder ->
  legRadialSpreadMm c = Some spread ->
  ruleId v = "STAB-01" ->
  StabilityRules.checkStability (applyFix c v)
  = StabilityRules.checkStability c
  /\ StabilityRules.footprint (applyFix c v) = spread * 2.
Proof.
  intros Hp Hs E.
  rewrite (applyFix_at "STAB-01" _ _ v E eq_refl).
  unfold fix_STAB_01, bump.
  destruct (topWidthMm c <? _);
    unfold StabilityRules.checkStability, StabilityRules.footprint,
      StabilityRules.isRadial; fields; rewrite Hp, Hs;
    split; reflexivity.
Qed.

Lemma stability_fix_ignores_radial_footprint_witness :
  StabilityRules.checkStability
    (applyFix radialTippy (mkMessage "STAB-01" "topWidthMm"))
  = StabilityRules.checkStability radialTippy
  /\ StabilityRules.footprint
       (applyFix radialTippy (mkMessage "STAB-01" "topWidthMm"))
     = 150 * 2.
Proof.
  apply (stability_fix_ignores_radial_footprint radialTippy
           (mkMessage "STAB-01" "topWidthMm") 150); reflexivity.
Defined.

(** X15.  On a composite top with a face thickness, the EDGE-01 fix has no
    effect on the edge checker: it raises the overall thickness, and the
    edge of a composite top is checked against the face. *)
Theorem edge_fix_ignores_composite_faces (c : TableConfig)
    (v : ValidationMessage) (face : JS.number) :
  isComposite c = true ->
  topFaceThicknessMm c = Some face ->
  ruleId v = "EDGE-01" ->
  EdgeRules.checkEdge (applyFix c v) = EdgeRules.checkEdge c
  /\ EdgeRules.effectiveThickness (applyFix c v) = face.
Proof.
  intros Hc Hf E.
  rewrite (applyFix_at "EDGE-01" _ _ v E eq_refl).
  unfold fix_EDGE_01, bump.
  destruct (topThicknessMm c <? 20);
    unfold EdgeRules.checkEdge, EdgeRules.effectiveThickness in *;
    unfold isComposite in *; fields; rewrite ?Hc, Hf;
    destruct (topConstruction c) as [[|]|]; try discriminate Hc;
    split; reflexivity.
Qed.

Lemma edge_fix_ignores_composite_faces_witness :
  EdgeRules.checkEdge
    (applyFix miteredComposite (mkMessage "EDGE-01" "topEdgeFinish"))
  = EdgeRules.checkEdge miteredComposite
  /\ EdgeRules.effectiveThickness
       (applyFix miteredComposite (mkMessage "EDGE-01" "topEdgeFinish"))
     = 6.
Proof.
  apply (edge_fix_ignores_composite_faces miteredComposite
           (mkMessage "EDGE-01" "topEdgeFinish") 6); reflexivity.
Defined.

End RepairProps.

(** ** The ranges of the calculator *)

Module ConstraintProps.
Import Constraints FloatTactics.
Local Open Scope float_scope.

(** Decide every test, innermost first, keeping each decision. *)
Ltac decide_tests :=
  repeat match goal with
         | |- context [if ?b then _ else _] =>
           lazymatch b with
           | context [if _ then _ else _] => fail
           | _ => let E := fresh "E" in destruct b eqn:E
           end
         | H : context [if ?b then _ else _] |- _ =>
           lazymatch b with
           | context [if _ then _ else _] => fail
           | _ => let E := fresh "E" in destruct b eqn:E
           end
         end.

(** Raising keeps a minimum at or above where it was, and at or above the
    candidate when the candidate is a number. *)
Lemma raise_not_below (x m : JS.number) :
  (raise x m <? m) = false
  /\ (is_nan m = false -> (raise x m <? x) = false).
Proof.
  unfold raise, JS.gtb. destruct (m <? x) eqn:E; split; try intro;
    float_order.
Qed.

Lemma raise_number (x m : JS.number) :
  is_nan m = false -> is_nan (raise x m) = false.
Proof.
  unfold raise, JS.gtb. destruct (m <? x) eqn:E; intro; float_order.
Qed.

Lemma lower_not_above (x m : JS.number) :
  (m <? lower x m) = false.
Proof. unfold lower. destruct (x <? m) eqn:E; float_order. Qed.

(** A floor a minimum starts from is kept by every later raise. *)
Definition atLeast (floor m : JS.number) : Prop :=
  is_nan m = false /\ (m <? floor) = false.



Lemma atLeast_trans (a b m : JS.number) :
  atLeast a b -> atLeast b m -> atLeast a m.
Proof. intros [H1 H2] [H3 H4]. split; float_order. Qed.











(** The span limits the calculator can return. *)
Lemma maxSpanForThickness_unfold (m : TopMaterial) (t mult : JS.number) :
  maxSpanForThickness m t mult
  = option_map
      (fun tier => JSMath.Math_round (SpanRules.maxSpanMm tier * mult))
      (find (fun r => JS.geb t (SpanRules.minThicknessMm r))
         (match m with
          | sintered_stone =>
            [ SpanRules.mkSpanLimit
                [sintered_stone; quartz; marble; granite] 30 2400;
              SpanRules.mkSpanLimit [sintered_stone] 20 1800;
              SpanRules.mkSpanLimit [sintered_stone] 12 900 ]
          | _ =>
            [ SpanRules.mkSpanLimit
                [sintered_stone; quartz; marble; granite] 30 2400;
              SpanRules.mkSpanLimit [quartz; marble; granite] 20 1400 ]
          end)).
Proof.
  unfold maxSpanForThickness. rewrite SpanProps.candidates. reflexivity.
Qed.








(** The range of the overall thickness can be empty: with 30 mm faces a
    composite top needs 70 mm, above the absolute 60 mm. *)
Example thickness_range_inverted :
  let p := mkPartial None None None None None None (Some composite)
             (Some 30) None None None None None None None None None None in
  (min (topThicknessConstraint p), max (topThicknessConstraint p))
  = (70, 60).
Proof. vm_compute. reflexivity. Qed.

End ConstraintProps.

(** ** The calculator against the checkers *)

Module Lockstep.
Import Engine Findings Families RuleGuards Constraints ConstraintProps
  FloatTactics Cases.
Local Open Scope float_scope.











Lemma severalLegs_of_multiLeg (c : TableConfig) :
  SpanRules.isMultiLeg c = true -> (1 <? legCount c)%Z = true.
Proof.
  unfold SpanRules.isMultiLeg. intro H.
  apply orb_true_iff in H as [H|H]; [apply orb_true_iff in H as [H|H]|];
    apply Z.eqb_eq in H; rewrite H; reflexivity.
Qed.

(** X20.  A top on legs other than radial halfcylinders whose length is
    within the maximum the calculator gives for its thickness gets no
    SPAN-01 finding, provided the top is solid, or of sintered stone, or at
    least 30 mm thick. *)
Theorem length_within_range_passes (c : TableConfig) :
  legProfileType c <> radial_halfcylinder ->
  isComposite c = false \/ topMaterial c = sintered_stone
  \/ (30 <=? topThicknessMm c) = true ->
  (topLengthMm c <=? max (topLengthConstraint (toPartial c))) = true ->
  ~ In "SPAN-01" (map ruleId (allMessages c)).
Proof.
  intros Hr Hs Hle Hin.
  apply span_rule_source in Hin; [|simpl; tauto].
  apply SpanProps.SPAN01_iff in Hin as (_ & Hm & r & Hr' & Hgt).
  apply severalLegs_of_multiLeg in Hm.
  rewrite SpanProps.applicableRule_unfold in Hr'.
  unfold SpanRules.compositeMultiplier in Hgt.
  unfold topLengthConstraint in Hle.
  change (isCompositeP (toPartial c)) with (isComposite c) in Hle.
  cbv zeta in Hle.
  unfold severalLegsP, notRadialP in Hle.
  cbn [toPartial p_topMaterial p_topThicknessMm p_legCount p_legProfileType
       max] in Hle.
  rewrite Hm, maxSpanForThickness_unfold in Hle.
  assert (Hn : match legProfileType c with
               | radial_halfcylinder => false
               | _ => true
               end = true)
    by (destruct (legProfileType c); congruence).
  rewrite Hn in Hle. cbn [andb] in Hle. clear Hn Hr Hm.
  unfold JS.geb in *.
  set (len := topLengthMm c) in *. set (t := topThicknessMm c) in *.
  clearbody len t.
  destruct (isComposite c), (topMaterial c);
    destruct Hs as [Hs|[Hs|Hs]]; try discriminate Hs;
    cbn [find SpanRules.minThicknessMm] in Hr', Hle;
    destruct (30 <=? t); try discriminate Hs; clear Hs;
    [| destruct (20 <=? t); [| try destruct (12 <=? t)] ..];
    try discriminate Hr'; injection Hr' as <-;
    cbn [option_map SpanRules.maxSpanMm] in Hle, Hgt;
    vm_compute in Hle; float_order.
Qed.

Lemma length_within_range_passes_witness :
  ~ In "SPAN-01" (map ruleId (allMessages Samples.base)).
Proof.
  apply (length_within_range_passes Samples.base).
  - discriminate.
  - left. reflexivity.
  - reflexivity.
Defined.

(** Outside these cases the two do not agree: the calculator rounds the
    limit 1400 * 1.4 up to 1960, the checker compares with the product
    itself, which is just below. *)
Example composite_length_gap :
  let c := mkConfig quartz 29 shape_rectangle 1960 900 straight
             (Some composite) (Some 12) 4%Z steel square 60 None 700 false
             None None 729 in
  (topLengthMm c <=? max (topLengthConstraint (toPartial c))) = true
  /\ map ruleId (allMessages c) = ["COMP-02"; "SPAN-01"].
Proof. split; vm_compute; reflexivity. Qed.













End Lockstep.
